(** * WorksheetBot: worksheet text parsing and session history persistence

    A shallow embedding of the two pieces of logic of the repository:

    - the line-oriented parser that turns the text returned by the language
      model into title / instructions / tips / sections, as written twice in
      [autism_worksheet_agent.py]: inside [render_html_worksheet] and inside
      the [st.button("Generate Worksheet")] branch;
    - the file-backed chat history cache ([get_session_history] and
      [save_session_history]), present with the same body in
      [autism_worksheet_agent.py] and [test_agent_1.py].

    Text model.  A Python [str] is a Rocq [string] holding the UTF-8 bytes
    of the text.  The [str] methods used by the program ([strip], [lstrip],
    [upper], [startswith], [split], [splitlines]) are modelled with their
    behaviour on code points below 128; bytes of a multi-byte character are
    kept as they are (never white space, never a line break, without case).
    So the model differs from Python on texts that hold the white space
    characters U+0085, U+00A0, U+1680, U+2000 to U+200A, U+2028, U+2029,
    U+202F, U+205F or U+3000 (which [strip] removes, and at three of which
    [splitlines] breaks), or letters whose upper case is ASCII text (U+0131,
    U+017F, the ligatures U+FB00 to U+FB06): the statements below are about
    texts without them.

    File model.  The working directory is a map from the exact file name to
    the content: two names that reach one file on disk (a leading "./",
    letter case on some systems) and the failure of [open] (a name in a
    missing directory, no permission) are not modelled. *)

From Stdlib Require Import String Ascii List Arith ZArith Lia Bool DecimalString.
From Stdlib Require Import DecimalNat.
From stdpp Require Import base option list gmap strings.

Local Open Scope string_scope.
Local Open Scope list_scope.

(** ** Python string primitives *)

Module Text.

(** [str.isspace] on a single ASCII character:
    TAB, LF, VT, FF, CR, FS, GS, RS, US and the space. *)
Definition is_space (c : ascii) : bool :=
  let n := nat_of_ascii c in
  ((9 <=? n) && (n <=? 13) || (28 <=? n) && (n <=? 32))%nat.

(** Line boundaries of [str.splitlines] below 128:
    LF, VT, FF, CR, FS, GS and RS. *)
Definition is_linebreak (c : ascii) : bool :=
  let n := nat_of_ascii c in
  ((10 <=? n) && (n <=? 13) || (28 <=? n) && (n <=? 30))%nat.

Definition is_empty (s : string) : bool :=
  match s with EmptyString => true | String _ _ => false end.

(** [s.lstrip()] *)
Fixpoint lstrip (s : string) : string :=
  match s with
  | EmptyString => EmptyString
  | String c s' => if is_space c then lstrip s' else s
  end.

(** [s.rstrip()] *)
Fixpoint rstrip (s : string) : string :=
  match s with
  | EmptyString => EmptyString
  | String c s' =>
      let r := rstrip s' in
      if is_space c && is_empty r then EmptyString else String c r
  end.

(** [s.strip()] *)
Definition strip (s : string) : string := rstrip (lstrip s).

(** Membership of a character in the argument of [lstrip(chars)]. *)
Fixpoint mem_char (c : ascii) (chars : string) : bool :=
  match chars with
  | EmptyString => false
  | String d chars' => Ascii.eqb c d || mem_char c chars'
  end.

(** [s.lstrip(chars)] *)
Fixpoint lstrip_chars (chars : string) (s : string) : string :=
  match s with
  | EmptyString => EmptyString
  | String c s' => if mem_char c chars then lstrip_chars chars s' else s
  end.

Definition upper_char (c : ascii) : ascii :=
  let n := nat_of_ascii c in
  if ((97 <=? n) && (n <=? 122))%nat then ascii_of_nat (n - 32) else c.

(** [s.upper()] *)
Fixpoint upper (s : string) : string :=
  match s with
  | EmptyString => EmptyString
  | String c s' => String (upper_char c) (upper s')
  end.

(** [s.startswith(p)] *)
Definition startswith (p s : string) : bool := String.prefix p s.

(** First occurrence of a separator character: the text before it and the
    text after it, or [None] when the character does not occur. *)
Fixpoint partition_at (sep : ascii) (s : string) : option (string * string) :=
  match s with
  | EmptyString => None
  | String c s' =>
      if Ascii.eqb c sep then Some (EmptyString, s')
      else match partition_at sep s' with
           | Some (a, b) => Some (String c a, b)
           | None => None
           end
  end.

(** [s.split(sep, 1)] for a one-character separator. *)
Definition split1 (sep : ascii) (s : string) : list string :=
  match partition_at sep s with
  | Some (a, b) => [a; b]
  | None => [s]
  end.

(** [l[-1]] on a list that [split] returned (never empty). *)
Definition last_item (l : list string) : string := List.last l EmptyString.

(** [s.splitlines()]: [cur] is the line being read, in reverse. *)
Fixpoint rev_string (acc : string) (s : string) : string :=
  match s with
  | EmptyString => acc
  | String c s' => rev_string (String c acc) s'
  end.

Fixpoint splitlines_from (cur : string) (s : string) : list string :=
  match s with
  | EmptyString =>
      if is_empty cur then [] else [rev_string EmptyString cur]
  | String c s' =>
      if is_linebreak c then
        match s' with
        | String c' s'' =>
            if Ascii.eqb c "013"%char && Ascii.eqb c' "010"%char
            then rev_string EmptyString cur :: splitlines_from EmptyString s''
            else rev_string EmptyString cur :: splitlines_from EmptyString s'
        | EmptyString =>
            rev_string EmptyString cur :: splitlines_from EmptyString s'
        end
      else splitlines_from (String c cur) s'
  end.

Definition splitlines (s : string) : list string :=
  splitlines_from EmptyString s.

(** [str(n)] for a non-negative integer. *)
Definition str_of_nat (n : nat) : string :=
  NilEmpty.string_of_uint (Nat.to_uint n).

End Text.

(** ** The [sections] dictionary

    A Python [dict] keeps its keys in insertion order and [html_template]
    walks [sections.items()] in that order, so the dictionary is an
    association list without duplicate keys. *)

Module PyDict.

Definition dict : Type := list (string * list string).

(** [d.get(k)] *)
Fixpoint get (k : string) (d : dict) : option (list string) :=
  match d with
  | [] => None
  | (k', v) :: d' => if String.eqb k k' then Some v else get k d'
  end.

(** [d[k] = v]: a present key keeps its place, a new key goes last. *)
Fixpoint set (k : string) (v : list string) (d : dict) : dict :=
  match d with
  | [] => [(k, v)]
  | (k', v') :: d' =>
      if String.eqb k k' then (k', v) :: d' else (k', v') :: set k v d'
  end.

(** [d[k].append(x)] for a key that is present. *)
Fixpoint append_at (k : string) (x : string) (d : dict) : dict :=
  match d with
  | [] => []
  | (k', v) :: d' =>
      if String.eqb k k' then (k', v ++ [x]) :: d'
      else (k', v) :: append_at k x d'
  end.

(** [d.setdefault(k, []).append(x)] *)
Definition setdefault_append (k : string) (x : string) (d : dict) : dict :=
  match get k d with
  | Some _ => append_at k x d
  | None => d ++ [(k, [x])]
  end.

(** [sum(len(v) for v in d.values())] *)
Definition total (d : dict) : nat :=
  fold_right (fun kv acc => length (snd kv) + acc) 0 d.

Definition keys (d : dict) : list string := map fst d.

End PyDict.

(** ** The worksheet parser *)

Module Worksheet.
Import Text PyDict.

(** What [html_template] receives from the parser. *)
Record worksheet := {
  ws_title : string;
  ws_instructions : string;
  ws_tips : string;
  ws_sections : dict
}.

(** The local variables of the parsing loop.  [current_key] is [None]
    until a PART header is read; afterwards it is one of the three
    non-empty literals, so the test [if current_key:] is [Some]. *)
Record pstate := {
  title : string;
  instructions : string;
  tips : string;
  sections : dict;
  current_key : option string
}.

Definition set_title (v : string) (st : pstate) : pstate :=
  {| title := v; instructions := instructions st; tips := tips st;
     sections := sections st; current_key := current_key st |}.
Definition set_instructions (v : string) (st : pstate) : pstate :=
  {| title := title st; instructions := v; tips := tips st;
     sections := sections st; current_key := current_key st |}.
Definition set_tips (v : string) (st : pstate) : pstate :=
  {| title := title st; instructions := instructions st; tips := v;
     sections := sections st; current_key := current_key st |}.
Definition set_sections (d : dict) (st : pstate) : pstate :=
  {| title := title st; instructions := instructions st; tips := tips st;
     sections := d; current_key := current_key st |}.
Definition set_current_key (k : string) (st : pstate) : pstate :=
  {| title := title st; instructions := instructions st; tips := tips st;
     sections := sections st; current_key := Some k |}.

(** [l.split(":", 1)[-1].strip()] *)
Definition header_value (l : string) : string :=
  strip (last_item (split1 ":" l)).

(** [l.lstrip("-*1234567890. ").strip()] *)
Definition clean_question (l : string) : string :=
  strip (lstrip_chars "-*1234567890. " l).

(** [f"Practice question {total+1}: Draw and count stars or cars."] *)
Definition practice_question (total : nat) : string :=
  "Practice question " +:+ str_of_nat (total + 1) +:+
  ": Draw and count stars or cars.".

(** The loop
    [while total < 12: sections.setdefault("Extra Practice", []).append(..); total += 1].
    It runs at most twelve times; [fuel] bounds the iterations and
    [ensure_min_exit] shows that twelve is enough. *)
Fixpoint ensure_min_loop (fuel : nat) (total : nat) (d : dict) : dict * nat :=
  match fuel with
  | O => (d, total)
  | S fuel' =>
      if (total <? 12)%nat then
        ensure_min_loop fuel' (total + 1)
          (setdefault_append "Extra Practice" (practice_question total) d)
      else (d, total)
  end.

Definition ensure_min (d : dict) : dict * nat :=
  ensure_min_loop 12 (total d) d.

(** *** [render_html_worksheet] *)

(** [[l.strip() for l in text.splitlines() if l.strip()]] *)
Definition render_lines (text : string) : list string :=
  map strip (filter (fun l => negb (is_empty (strip l))) (splitlines text)).

(** The body of [for l in lines]. *)
Definition render_line (st : pstate) (l : string) : pstate :=
  let upper := upper l in
  if startswith "TITLE" upper then set_title (header_value l) st
  else if startswith "INSTRUCTIONS" upper then
    set_instructions (header_value l) st
  else if startswith "PARENT TIPS" upper then set_tips (header_value l) st
  else if startswith "PART A" upper then
    set_sections (set "Part A" [] (sections st)) (set_current_key "Part A" st)
  else if startswith "PART B" upper then
    set_sections (set "Part B" [] (sections st)) (set_current_key "Part B" st)
  else if startswith "PART C" upper then
    set_sections (set "Part C" [] (sections st)) (set_current_key "Part C" st)
  else
    match current_key st with
    | Some k =>
        let cleaned := clean_question l in
        if is_empty cleaned then st
        else set_sections (append_at k cleaned (sections st)) st
    | None => st
    end.

Definition render_init (child : string) : pstate :=
  {| title := child +:+ "’s Worksheet"; instructions := ""; tips := "";
     sections := []; current_key := None |}.

Definition render_pass (text child : string) : pstate :=
  fold_left render_line (render_lines text) (render_init child).

Definition default_instructions : string :=
  "Read each question together and encourage pointing and counting.".
Definition default_tips : string :=
  "Celebrate effort and keep sessions short and fun.".

(** [render_html_worksheet(text, child)] up to the call of
    [html_template]: the result is the title, instructions, sections and
    tips passed to it.  The date, the file name and the write to
    [out_dir] are left out. *)
Definition render_html_worksheet (text child : string) : worksheet :=
  let st := render_pass text child in
  {| ws_title := title st;
     ws_instructions :=
       if is_empty (instructions st) then default_instructions
       else instructions st;
     ws_tips := if is_empty (tips st) then default_tips else tips st;
     ws_sections := fst (ensure_min (sections st)) |}.

(** *** The [st.button("Generate Worksheet")] branch *)

(** The body of [for line in bot_text.splitlines()]. *)
Definition button_line (st : pstate) (line : string) : pstate :=
  let upper := upper line in
  if startswith "TITLE" upper then set_title (header_value line) st
  else if startswith "INSTRUCTIONS" upper then
    set_instructions (header_value line) st
  else if startswith "PARENT TIPS" upper then
    set_tips (header_value line) st
  else if startswith "PART A" upper then set_current_key "Part A" st
  else if startswith "PART B" upper then set_current_key "Part B" st
  else if startswith "PART C" upper then set_current_key "Part C" st
  else
    match current_key st with
    | Some k =>
        if negb (is_empty (strip line)) then
          set_sections (append_at k (clean_question line) (sections st)) st
        else st
    | None => st
    end.

Definition button_init (child : string) : pstate :=
  {| title := child +:+ "'s Worksheet"; instructions := ""; tips := "";
     sections := [("Part A", []); ("Part B", []); ("Part C", [])];
     current_key := None |}.

Definition button_pass (bot_text child : string) : pstate :=
  fold_left button_line (splitlines bot_text) (button_init child).

(** The branch up to the call of [html_template]. *)
Definition generate_worksheet (bot_text child : string) : worksheet :=
  let st := button_pass bot_text child in
  {| ws_title := title st;
     ws_instructions := instructions st;
     ws_tips := tips st;
     ws_sections := fst (ensure_min (sections st)) |}.

(** The six header tests of the loop, as one predicate on a line. *)
Definition is_scalar_header (l : string) : bool :=
  startswith "TITLE" (upper l) || startswith "INSTRUCTIONS" (upper l) ||
  startswith "PARENT TIPS" (upper l).

Definition is_part_header (l : string) : bool :=
  startswith "PART A" (upper l) || startswith "PART B" (upper l) ||
  startswith "PART C" (upper l).

Definition is_header (l : string) : bool :=
  is_scalar_header l || is_part_header l.

(** The line holds a colon. *)
Definition has_colon (l : string) : bool := mem_char ":"%char l.

End Worksheet.

(** ** JSON values and the [json] module *)

Module Json.

(** What [json.loads] can return and [json.dump] can write. *)
#[local] Set Warnings "-register-all".
Inductive value :=
| Null
| Bool (b : bool)
| Num (n : Z)
| Str (s : string)
| Arr (items : list value)
| Obj (members : list (string * value)).

(** The two functions of Python's standard [json] module that the program
    calls.  [dumps v] is the text that [json.dump(v, f, indent=2)] writes;
    [loads s] is [json.loads(s)], with [None] for [JSONDecodeError]. *)
Record lib := {
  dumps : value -> string;
  loads : string -> option value
}.

(** The contract of the module that the round trip through a file relies
    on, for one value: what was written is not blank and reads back. *)
Definition reads_back (J : lib) (v : value) : Prop :=
  Text.is_empty (Text.strip (dumps J v)) = false /\
  loads J (Text.strip (dumps J v)) = Some v.

End Json.

(** ** The chat history cache *)

Module History.
Import Text.

(** A message held by an [InMemoryChatMessageHistory], seen through the
    three cases of [save_session_history]: an object with a [model_dump]
    method (and possibly [dict]), an object with only a [dict] method, or
    anything else, which is written as it is (the dictionaries that
    [get_session_history] loads are of this kind). *)
Inductive message :=
| HasModelDump (model_dump : Json.value) (dict : option Json.value)
| HasDict (dict : Json.value)
| Plain (v : Json.value).

(** An [InMemoryChatMessageHistory] object: its identity and its
    [messages] list. *)
Record history := {
  oid : positive;
  messages : list message
}.

(** [history.add_message(msg)] *)
Definition add_message (msg : message) (h : history) : history :=
  {| oid := oid h; messages := messages h ++ [msg] |}.

(** The process state the two functions act on: the module-level
    dictionary [chat_history_store], the files of the working directory
    (name to content) and the next free object identity. *)
Record state := {
  chat_history_store : gmap string history;
  files : gmap string string;
  next_oid : positive
}.

Inductive exn :=
| KeyError (key : string)
| JSONDecodeError
| TypeError.

Inductive outcome (A : Type) :=
| Ok (a : A)
| Raise (e : exn).
Arguments Ok {A} a.
Arguments Raise {A} e.

(** [f"{session_id}_history.json"] *)
Definition filename (session_id : string) : string :=
  session_id +:+ "_history.json".

(** [l[-20:]] on a list. *)
Definition last20 {A : Type} (l : list A) : list A :=
  drop (length l - 20) l.

Fixpoint chars (s : string) : list string :=
  match s with
  | EmptyString => []
  | String c s' => String c EmptyString :: chars s'
  end.

(** The values that [for msg in messages[-20:]] yields, for each kind of
    value [json.loads] may have returned: the last twenty items of a
    list, the last twenty characters of a string; an object or a scalar
    cannot be sliced. *)
Definition slice_last20 (v : Json.value) : outcome (list Json.value) :=
  match v with
  | Json.Arr items => Ok (last20 items)
  | Json.Str s => Ok (map Json.Str (last20 (chars s)))
  | Json.Obj _ | Json.Null | Json.Bool _ | Json.Num _ => Raise TypeError
  end.

(** The three branches of the loop of [save_session_history]. *)
Definition serialize (m : message) : Json.value :=
  match m with
  | HasModelDump d _ => d
  | HasDict d => d
  | Plain v => v
  end.

Section WithJson.
Variable J : Json.lib.

(** The messages read from the file of a session that is not cached.
    The [history] object under construction is local to the call until
    it is stored, so it is the list of its messages here. *)
Definition load_messages (session_id : string) (st : state)
  : outcome (list message) :=
  match files st !! filename session_id with
  | Some text =>
      let content := strip text in
      if is_empty content then Ok []
      else
        match Json.loads J content with
        | None => Raise JSONDecodeError
        | Some v =>
            match slice_last20 v with
            | Ok msgs =>
                Ok (messages
                      (fold_left (fun h msg => add_message (Plain msg) h)
                         msgs {| oid := next_oid st; messages := [] |}))
            | Raise e => Raise e
            end
        end
  | None => Ok []
  end.

(** [get_session_history(session_id)] *)
Definition get_session_history (session_id : string) (st : state)
  : outcome history * state :=
  match chat_history_store st !! session_id with
  | Some h => (Ok h, st)
  | None =>
      match load_messages session_id st with
      | Ok msgs =>
          let h := {| oid := next_oid st; messages := msgs |} in
          (Ok h,
           {| chat_history_store := <[session_id := h]> (chat_history_store st);
              files := files st;
              next_oid := Pos.succ (next_oid st) |})
      | Raise e => (Raise e, st)
      end
  end.

(** [save_session_history(session_id)] *)
Definition save_session_history (session_id : string) (st : state)
  : outcome unit * state :=
  match chat_history_store st !! session_id with
  | None => (Raise (KeyError session_id), st)
  | Some h =>
      let serialized :=
        fold_left (fun acc m => acc ++ [serialize m]) (messages h) [] in
      (Ok tt,
       {| chat_history_store := chat_history_store st;
          files := <[filename session_id :=
                       Json.dumps J (Json.Arr serialized)]> (files st);
          next_oid := next_oid st |})
  end.

End WithJson.

End History.

(** ** A reference implementation of the [json] module

    The text format of [json.dumps(v, indent=2)] and a reader for it, on
    integers, strings, arrays and objects.  The theorems about the history
    cache hold for any [Json.lib]; this one is used to run the model. *)

Module JsonText.
Import Json.

Definition nl_indent (level : nat) : string :=
  String "010"%char (String.concat "" (repeat "  " level)).

Definition hex_digit (n : nat) : ascii :=
  if (n <? 10)%nat then ascii_of_nat (48 + n) else ascii_of_nat (87 + n).

(** One character of a string literal, as [ensure_ascii] writes the
    characters below 128. *)
Definition escape_char (c : ascii) : string :=
  let n := nat_of_ascii c in
  if Ascii.eqb c "034"%char then String "\"%char (String "034"%char "")
  else if Ascii.eqb c "\"%char then "\\"
  else if (n =? 10)%nat then "\n"
  else if (n =? 13)%nat then "\r"
  else if (n =? 9)%nat then "\t"
  else if (n =? 8)%nat then "\b"
  else if (n =? 12)%nat then "\f"
  else if ((n <? 32) || (n =? 127))%nat then
    "\u00" +:+ String (hex_digit (n / 16)) (String (hex_digit (n mod 16)) "")
  else String c "".

Fixpoint escape (s : string) : string :=
  match s with
  | EmptyString => EmptyString
  | String c s' => escape_char c +:+ escape s'
  end.

Definition quote (s : string) : string :=
  String "034"%char (escape s) +:+ String "034"%char "".

Definition print_int (n : Z) : string := NilZero.string_of_int (Z.to_int n).

Fixpoint print (level : nat) (v : value) : string :=
  match v with
  | Null => "null"
  | Bool true => "true"
  | Bool false => "false"
  | Num n => print_int n
  | Str s => quote s
  | Arr [] => "[]"
  | Arr (x :: xs) =>
      "[" +:+ nl_indent (S level) +:+ print (S level) x +:+
      (fix rest (l : list value) : string :=
         match l with
         | [] => ""
         | y :: l' =>
             "," +:+ nl_indent (S level) +:+ print (S level) y +:+ rest l'
         end) xs +:+
      nl_indent level +:+ "]"
  | Obj [] => "{}"
  | Obj ((k, x) :: ms) =>
      "{" +:+ nl_indent (S level) +:+ quote k +:+ ": " +:+
      print (S level) x +:+
      (fix rest (l : list (string * value)) : string :=
         match l with
         | [] => ""
         | (k', y) :: l' =>
             "," +:+ nl_indent (S level) +:+ quote k' +:+ ": " +:+
             print (S level) y +:+ rest l'
         end) ms +:+
      nl_indent level +:+ "}"
  end.

(** Reading. *)

Definition is_ws (c : ascii) : bool :=
  let n := nat_of_ascii c in
  ((n =? 32) || (n =? 10) || (n =? 13) || (n =? 9))%nat.

Fixpoint skip_ws (s : string) : string :=
  match s with
  | String c s' => if is_ws c then skip_ws s' else s
  | EmptyString => EmptyString
  end.

Definition hex_value (c : ascii) : option nat :=
  let n := nat_of_ascii c in
  if ((48 <=? n) && (n <=? 57))%nat then Some (n - 48)
  else if ((97 <=? n) && (n <=? 102))%nat then Some (n - 87)
  else if ((65 <=? n) && (n <=? 70))%nat then Some (n - 55)
  else None.

(** UTF-8 bytes of a code point of the basic plane. *)
Definition utf8 (cp : nat) : string :=
  if (cp <? 128)%nat then String (ascii_of_nat cp) ""
  else if (cp <? 2048)%nat then
    String (ascii_of_nat (192 + cp / 64))
      (String (ascii_of_nat (128 + cp mod 64)) "")
  else
    String (ascii_of_nat (224 + cp / 4096))
      (String (ascii_of_nat (128 + (cp / 64) mod 64))
         (String (ascii_of_nat (128 + cp mod 64)) "")).

Definition unescape (c : ascii) : option string :=
  if Ascii.eqb c "034"%char then Some (String c "")
  else if Ascii.eqb c "\"%char then Some (String c "")
  else if Ascii.eqb c "/"%char then Some (String c "")
  else if Ascii.eqb c "n"%char then Some (String "010"%char "")
  else if Ascii.eqb c "r"%char then Some (String "013"%char "")
  else if Ascii.eqb c "t"%char then Some (String "009"%char "")
  else if Ascii.eqb c "b"%char then Some (String "008"%char "")
  else if Ascii.eqb c "f"%char then Some (String "012"%char "")
  else None.

(** The rest of a string literal, after its opening quote. *)
Fixpoint read_string (s : string) : option (string * string) :=
  match s with
  | EmptyString => None
  | String c s' =>
      if Ascii.eqb c "034"%char then Some (EmptyString, s')
      else if Ascii.eqb c "\"%char then
        match s' with
        | String e s'' =>
            if Ascii.eqb e "u"%char then
              match s'' with
              | String h1 (String h2 (String h3 (String h4 s3))) =>
                  match hex_value h1, hex_value h2, hex_value h3, hex_value h4,
                        read_string s3 with
                  | Some a, Some b, Some c', Some d, Some (t, r) =>
                      Some (utf8 (((a * 16 + b) * 16 + c') * 16 + d) +:+ t, r)
                  | _, _, _, _, _ => None
                  end
              | _ => None
              end
            else
              match unescape e, read_string s'' with
              | Some u, Some (t, r) => Some (u +:+ t, r)
              | _, _ => None
              end
        | EmptyString => None
        end
      else if (nat_of_ascii c <? 32)%nat then None
      else
        match read_string s' with
        | Some (t, r) => Some (String c t, r)
        | None => None
        end
  end.

Definition is_digit (c : ascii) : bool :=
  let n := nat_of_ascii c in ((48 <=? n) && (n <=? 57))%nat.

Fixpoint span_digits (s : string) : string * string :=
  match s with
  | String c s' =>
      if is_digit c then
        let (d, r) := span_digits s' in (String c d, r)
      else (EmptyString, s)
  | EmptyString => (EmptyString, EmptyString)
  end.

(** The first character of a text is [c]. *)
Definition starts_with_char (c : ascii) (s : string) : bool :=
  match s with
  | String c' _ => Ascii.eqb c' c
  | EmptyString => false
  end.

Definition tail (s : string) : string :=
  match s with
  | String _ s' => s'
  | EmptyString => EmptyString
  end.

(** An integer literal in the form [print_int] writes it. *)
Definition read_int (s : string) : option (Z * string) :=
  let sign := if starts_with_char "-" s then "-" else "" in
  let body := if starts_with_char "-" s then tail s else s in
  let (digits, r) := span_digits body in
  match NilZero.int_of_string (sign +:+ digits) with
  | Some i =>
      if String.eqb (print_int (Z.of_int i)) (sign +:+ digits)
      then Some (Z.of_int i, r) else None
  | None => None
  end.

Definition expect (p : string) (s : string) : option string :=
  if String.prefix p s
  then Some (String.substring (String.length p)
               (String.length s - String.length p) s)
  else None.

(** [fuel] bounds the nesting and the number of items read; [parse]
    gives it the length of the text. *)
Fixpoint read_value (fuel : nat) (s : string) : option (value * string) :=
  match fuel with
  | O => None
  | S fuel' =>
      let t := skip_ws s in
      if starts_with_char "n" t then
        match expect "null" t with
        | Some r => Some (Null, r) | None => None end
      else if starts_with_char "t" t then
        match expect "true" t with
        | Some r => Some (Bool true, r) | None => None end
      else if starts_with_char "f" t then
        match expect "false" t with
        | Some r => Some (Bool false, r) | None => None end
      else if starts_with_char "034" t then
        match read_string (tail t) with
        | Some (x, r) => Some (Str x, r) | None => None end
      else if starts_with_char "[" t then
        if starts_with_char "]" (skip_ws (tail t))
        then Some (Arr [], tail (skip_ws (tail t)))
        else
          match read_value fuel' (tail t) with
          | Some (x, r) =>
              match read_items fuel' r with
              | Some (xs, r') => Some (Arr (x :: xs), r')
              | None => None
              end
          | None => None
          end
      else if starts_with_char "{" t then
        if starts_with_char "}" (skip_ws (tail t))
        then Some (Obj [], tail (skip_ws (tail t)))
        else
          match read_member fuel' (tail t) with
          | Some (m, r) =>
              match read_members fuel' r with
              | Some (ms, r') => Some (Obj (m :: ms), r')
              | None => None
              end
          | None => None
          end
      else
        match read_int t with
        | Some (n, r) => Some (Num n, r) | None => None end
  end
with read_items (fuel : nat) (s : string) : option (list value * string) :=
  match fuel with
  | O => None
  | S fuel' =>
      let t := skip_ws s in
      if starts_with_char "]" t then Some ([], tail t)
      else if starts_with_char "," t then
        match read_value fuel' (tail t) with
        | Some (x, r) =>
            match read_items fuel' r with
            | Some (xs, r') => Some (x :: xs, r')
            | None => None
            end
        | None => None
        end
      else None
  end
with read_member (fuel : nat) (s : string)
  : option ((string * value) * string) :=
  match fuel with
  | O => None
  | S fuel' =>
      let t := skip_ws s in
      if starts_with_char "034" t then
        match read_string (tail t) with
        | Some (k, r) =>
            if starts_with_char ":" (skip_ws r) then
              match read_value fuel' (tail (skip_ws r)) with
              | Some (x, r') => Some ((k, x), r')
              | None => None
              end
            else None
        | None => None
        end
      else None
  end
with read_members (fuel : nat) (s : string)
  : option (list (string * value) * string) :=
  match fuel with
  | O => None
  | S fuel' =>
      let t := skip_ws s in
      if starts_with_char "}" t then Some ([], tail t)
      else if starts_with_char "," t then
        match read_member fuel' (tail t) with
        | Some (m, r) =>
            match read_members fuel' r with
            | Some (ms, r') => Some (m :: ms, r')
            | None => None
            end
        | None => None
        end
      else None
  end.

(** [json.loads]: one value, with white space allowed around it. *)
Definition parse (s : string) : option value :=
  match read_value (S (String.length s)) s with
  | Some (v, r) => if Text.is_empty (skip_ws r) then Some v else None
  | None => None
  end.

Definition reference : Json.lib :=
  {| dumps := print 0; loads := parse |}.

End JsonText.

(** ** Sample inputs *)

Module Samples.

Definition lf : string := String "010"%char EmptyString.

(** The scenario of the specification. *)
Definition space_math : string :=
  "TITLE: Space Math" +:+ lf +:+ "PART A" +:+ lf +:+
  "1. Count 3 rockets" +:+ lf +:+ "2. Add 2+2" +:+ lf +:+
  "PARENT TIPS: Go slow".

(** A PART A header read twice. *)
Definition part_a_twice : string :=
  "PART A" +:+ lf +:+ "1. Count 3 rockets" +:+ lf +:+
  "PART A" +:+ lf +:+ "2. Add 2+2".

(** A line that holds a numbering marker and nothing else. *)
Definition marker_only : string := "PART A" +:+ lf +:+ "1.".

(** A history of twenty-three messages of the three kinds. *)
Definition chat (role text : string) : Json.value :=
  Json.Obj [("type", Json.Str role); ("content", Json.Str text)].

Definition long_history : History.history :=
  {| History.oid := 1%positive;
     History.messages :=
       History.HasModelDump (chat "human" "Make a rocket worksheet") None ::
       History.HasDict (chat "ai" "TITLE: Space Math") ::
       map (fun n => History.Plain (chat "human" (Text.str_of_nat n)))
         (seq 0 21) |}.

(** A process that holds the history in its cache and has written no file. *)
Definition running : History.state :=
  {| History.chat_history_store := {[ "worksheet_session" := long_history ]};
     History.files := ∅;
     History.next_oid := 2%positive |}.

(** A process that has just started in a directory holding [fs]. *)
Definition started (fs : gmap string string) : History.state :=
  {| History.chat_history_store := ∅;
     History.files := fs;
     History.next_oid := 1%positive |}.

(** A history of twenty-one messages: a plain value, an object with
    [model_dump] (and a [dict] method that must not be used), an object
    with [dict] only, and eighteen plain values. *)
Definition mixed_history : History.history :=
  {| History.oid := 1%positive;
     History.messages :=
       History.Plain (Samples.chat "human" "hello") ::
       History.HasModelDump (Samples.chat "human" "Make a rocket worksheet")
         (Some (Samples.chat "human" "from dict")) ::
       History.HasDict (Samples.chat "ai" "TITLE: Space Math") ::
       map (fun n => History.Plain (Samples.chat "human" (Text.str_of_nat n)))
         (seq 0 18) |}.

Definition mixed_running : History.state :=
  {| History.chat_history_store := {[ "abc123" := mixed_history ]};
     History.files := ∅;
     History.next_oid := 2%positive |}.
End Samples.


(** ** A process that uses the cache

    The steps a process takes on the cache: a call of
    [get_session_history], a call of [save_session_history], or
    [history.add_message(msg)] on the object cached for a session (what
    [RunnableWithMessageHistory] does with the object that
    [get_session_history] returned to it). *)

Module Process.
Import History.

Inductive op :=
| Get (session_id : string)
| Append (session_id : string) (msg : message)
| Save (session_id : string).

Definition append_message (session_id : string) (msg : message) (st : state)
  : state :=
  match chat_history_store st !! session_id with
  | Some h =>
      {| chat_history_store :=
           <[session_id := add_message msg h]> (chat_history_store st);
         files := files st;
         next_oid := next_oid st |}
  | None => st
  end.

(** An exception ends the step, not the process: the interactive loops
    go on with the state the failed call left. *)
Definition step (J : Json.lib) (st : state) (o : op) : state :=
  match o with
  | Get sid => snd (get_session_history J sid st)
  | Append sid msg => append_message sid msg st
  | Save sid => snd (save_session_history J sid st)
  end.

Definition run (J : Json.lib) (ops : list op) (st : state) : state :=
  fold_left (step J) ops st.

End Process.

(** ** The HTML page *)

Module Html.
Import PyDict.

(** The double quote character, as a text. *)
Definition dq : string := String "034"%char EmptyString.

Definition css : string :=
  "
    <style>
      body { font-family: 'Segoe UI', Tahoma, sans-serif; background: #ffffff; }
      .sheet { border: 6px solid #3b82f6; border-radius: 16px; padding: 16px; }
      h1 { color: #1f2937; }
      h2 { color: #2563eb; }
      .section { margin-top: 12px; padding: 10px; background: #f0f9ff; border-radius: 8px; }
      ul { list-style: none; padding-left: 0; }
      li { margin: 6px 0; }
      .footer { text-align: center; color: #6b7280; font-size: 12px; margin-top: 10px; }
    </style>
    ".

(** [f"<li>{q}</li>"] *)
Definition item (q : string) : string := "<li>" +:+ q +:+ "</li>".

(** [items = "".join([f"<li>{q}</li>" for q in questions])] and the text
    that one turn of the loop adds to [sections_html]. *)
Definition section_html (name : string) (questions : list string) : string :=
  let items := String.concat EmptyString (map item questions) in
  "<div class='section'><h2>" +:+ name +:+ "</h2><ul>" +:+ items +:+
  "</ul></div>".

(** The loop [for name, questions in sections.items(): sections_html += ...] *)
Definition sections_html (sections : dict) : string :=
  fold_left (fun acc kv => acc +:+ section_html (fst kv) (snd kv))
    sections EmptyString.

(** [html_template(title, instructions, sections, tips, today, child)] *)
Definition html_template
  (title instructions : string) (sections : dict) (tips today child : string)
  : string :=
  "
    <!doctype html>
    <html lang=" +:+ dq +:+ "en" +:+ dq +:+ ">
    <head>
      <meta charset=" +:+ dq +:+ "utf-8" +:+ dq +:+ ">
      <title>" +:+
  title +:+
  " — WorksheetBot</title>
      " +:+
  css +:+
  "
    </head>
    <body>
      <div class=" +:+ dq +:+ "sheet" +:+ dq +:+ ">
        <div>Date: " +:+
  today +:+
  " • Created for " +:+
  child +:+
  "</div>
        <h1>" +:+
  title +:+
  "</h1>
        <div class=" +:+ dq +:+ "section" +:+ dq +:+ "><h2>Instructions</h2><p>" +:+
  instructions +:+
  "</p></div>
        " +:+
  sections_html sections +:+
  "
        <div class=" +:+ dq +:+ "section" +:+ dq +:+ "><h2>Parent Tips</h2><p>" +:+
  tips +:+
  "</p></div>
        <div class=" +:+ dq +:+ "footer" +:+ dq +:+ ">WorksheetBot • Fun learning for " +:+
  child +:+
  "</div>
      </div>
    </body>
    </html>
    ".

(** The page that [render_html_worksheet(text, child)] writes on the day
    [today] (the text of [datetime.now().strftime("%A, %B %d, %Y")]). *)
Definition render_page (text child today : string) : string :=
  let w := Worksheet.render_html_worksheet text child in
  html_template (Worksheet.ws_title w) (Worksheet.ws_instructions w)
    (Worksheet.ws_sections w) (Worksheet.ws_tips w) today child.

End Html.

(** ** [format_scores] *)

Module Scores.
Import Text.

(** A search result: a dictionary from field names to texts. *)
Definition result : Type := list (string * string).

(** [r.get(key, "")] *)
Fixpoint get_or_empty (key : string) (r : result) : string :=
  match r with
  | [] => EmptyString
  | (k, v) :: r' => if String.eqb key k then v else get_or_empty key r'
  end.

(** [l[:limit]]: a negative [limit] counts from the end. *)
Definition slice_to {A : Type} (limit : Z) (l : list A) : list A :=
  if (limit <? 0)%Z then take (length l - Z.to_nat (- limit)) l
  else take (Z.to_nat limit) l.

(** [f"- {title}: {snippet}"] *)
Definition line (r : result) : string :=
  "- " +:+ get_or_empty "title" r +:+ ": " +:+ get_or_empty "snippet" r.

(** The test [if title or snippet]. *)
Definition usable (r : result) : bool :=
  negb (is_empty (get_or_empty "title" r)) ||
  negb (is_empty (get_or_empty "snippet" r)).

(** The body of [for r in results[:limit]]. *)
Definition add_entry (formatted : list string) (r : result) : list string :=
  let title := get_or_empty "title" r in
  let snippet := get_or_empty "snippet" r in
  if negb (is_empty title) || negb (is_empty snippet)
  then formatted ++ ["- " +:+ title +:+ ": " +:+ snippet]
  else formatted.

(** The list [formatted] when the loop ends. *)
Definition entries (results : list result) (limit : Z) : list string :=
  fold_left add_entry (slice_to limit results) [].

(** [format_scores(results, limit)] on a list of results; the default
    [limit] is 5. *)
Definition format_scores (results : list result) (limit : Z) : string :=
  match results with
  | [] => "No live scores available."
  | _ :: _ => String.concat (String "010"%char EmptyString) (entries results limit)
  end.

End Scores.


(** * Properties *)

Import Text PyDict Worksheet.

(** ** The dictionary *)

Lemma total_app (d1 d2 : dict) : total (d1 ++ d2) = total d1 + total d2.
Proof.
  induction d1 as [|[k v] d1 IH]; simpl; [reflexivity|].
  rewrite IH. lia.
Qed.

Lemma get_set_other (k k' : string) (v : list string) (d : dict) :
  String.eqb k k' = false -> get k (set k' v d) = get k d.
Proof.
  intros Hne. induction d as [|[k0 v0] d IH]; simpl.
  - rewrite Hne. reflexivity.
  - destruct (String.eqb k' k0) eqn:E; simpl.
    + apply String.eqb_eq in E. subst k0. rewrite Hne. reflexivity.
    + rewrite IH. reflexivity.
Qed.

Lemma get_set_same (k : string) (v : list string) (d : dict) :
  get k (set k v d) = Some v.
Proof.
  induction d as [|[k0 v0] d IH]; simpl.
  - rewrite String.eqb_refl. reflexivity.
  - destruct (String.eqb k k0) eqn:E; simpl; rewrite E; auto.
Qed.

Lemma get_append_at_other (k k' x : string) (d : dict) :
  String.eqb k k' = false -> get k (append_at k' x d) = get k d.
Proof.
  intros Hne. induction d as [|[k0 v0] d IH]; simpl; [reflexivity|].
  destruct (String.eqb k' k0) eqn:E; simpl.
  - apply String.eqb_eq in E. subst k0. rewrite Hne. reflexivity.
  - rewrite IH. reflexivity.
Qed.

Lemma get_append_at_same (k x : string) (d : dict) (v : list string) :
  get k d = Some v -> get k (append_at k x d) = Some (v ++ [x]).
Proof.
  induction d as [|[k0 v0] d IH]; simpl; [discriminate|].
  destruct (String.eqb k k0) eqn:E; simpl; rewrite E.
  - intros [= ->]. reflexivity.
  - exact IH.
Qed.

Lemma get_append_at_none (k k' x : string) (d : dict) :
  get k d = None -> get k (append_at k' x d) = None.
Proof.
  induction d as [|[k0 v0] d IH]; simpl; [reflexivity|].
  destruct (String.eqb k k0) eqn:E; [discriminate|].
  intros H. destruct (String.eqb k' k0); simpl; rewrite E; auto.
Qed.

Lemma total_append_at (k x : string) (d : dict) (v : list string) :
  get k d = Some v -> total (append_at k x d) = total d + 1.
Proof.
  induction d as [|[k0 v0] d IH]; simpl; [discriminate|].
  destruct (String.eqb k k0) eqn:E; simpl.
  - intros _. rewrite length_app. simpl. lia.
  - intros H. rewrite (IH H). lia.
Qed.

Lemma append_at_last (k x : string) (d : dict) (xs : list string) :
  get k d = None ->
  append_at k x (d ++ [(k, xs)]) = d ++ [(k, xs ++ [x])].
Proof.
  induction d as [|[k0 v0] d IH]; simpl.
  - intros _. rewrite String.eqb_refl. reflexivity.
  - destruct (String.eqb k k0) eqn:E; [discriminate|].
    intros H. rewrite (IH H). reflexivity.
Qed.

Lemma get_last (k : string) (d : dict) (xs : list string) :
  get k d = None -> get k (d ++ [(k, xs)]) = Some xs.
Proof.
  induction d as [|[k0 v0] d IH]; simpl.
  - intros _. rewrite String.eqb_refl. reflexivity.
  - destruct (String.eqb k k0) eqn:E; [discriminate|]. exact IH.
Qed.

(** ** The backfill loop *)

Lemma total_single (k : string) (v : list string) : total [(k, v)] = length v.
Proof. unfold total. cbn [fold_right snd]. lia. Qed.

Lemma seq_unfold (t n : nat) : (0 < n)%nat -> seq t n = t :: seq (S t) (n - 1).
Proof.
  destruct n as [|n]; [lia|]. intros _.
  replace (S n - 1)%nat with n by lia. reflexivity.
Qed.

(** One turn of the loop. *)
Lemma ensure_min_loop_step (fuel t : nat) (d : dict) :
  ensure_min_loop (S fuel) t d =
    if (t <? 12)%nat then
      ensure_min_loop fuel (t + 1)
        (setdefault_append "Extra Practice" (practice_question t) d)
    else (d, t).
Proof. reflexivity. Qed.

Lemma ensure_min_loop_done (fuel t : nat) (d : dict) :
  (12 <= t)%nat -> ensure_min_loop fuel t d = (d, t).
Proof.
  intros H. destruct fuel as [|fuel]; [reflexivity|].
  rewrite ensure_min_loop_step.
  destruct (t <? 12)%nat eqn:E; [apply Nat.ltb_lt in E; lia|reflexivity].
Qed.

Lemma ensure_min_loop_extra (fuel t : nat) (d : dict) (xs : list string) :
  get "Extra Practice" d = None ->
  (t <= 12)%nat ->
  (12 - t <= fuel)%nat ->
  ensure_min_loop fuel t (d ++ [("Extra Practice", xs)]) =
    (d ++ [("Extra Practice", xs ++ map practice_question (seq t (12 - t)))],
     12%nat).
Proof.
  intros Hd. revert t xs.
  induction fuel as [|fuel IH]; intros t xs Hle Hfuel.
  - assert (t = 12%nat) as -> by lia.
    rewrite ensure_min_loop_done by lia.
    replace (12 - 12)%nat with 0%nat by lia.
    cbn [seq map]. rewrite app_nil_r. reflexivity.
  - rewrite ensure_min_loop_step.
    destruct (t <? 12)%nat eqn:Hlt.
    + apply Nat.ltb_lt in Hlt.
      unfold setdefault_append. rewrite (get_last _ _ _ Hd).
      rewrite (append_at_last _ _ _ _ Hd).
      rewrite IH by lia.
      rewrite (seq_unfold t (12 - t)) by lia. cbn [map].
      rewrite <- app_assoc. cbn [app].
      replace (12 - (t + 1))%nat with (12 - t - 1)%nat by lia.
      replace (t + 1)%nat with (S t) by lia.
      reflexivity.
    + apply Nat.ltb_ge in Hlt. assert (t = 12%nat) as -> by lia.
      replace (12 - 12)%nat with 0%nat by lia.
      cbn [seq map]. rewrite app_nil_r. reflexivity.
Qed.

(** With fewer than twelve questions and no "Extra Practice" key yet, the
    loop ends with [total = 12] after adding that key last. *)
Lemma ensure_min_short (d : dict) :
  get "Extra Practice" d = None ->
  (total d < 12)%nat ->
  ensure_min d =
    (d ++ [("Extra Practice",
            map practice_question (seq (total d) (12 - total d)))], 12%nat).
Proof.
  intros Hd Hlt. unfold ensure_min.
  change (ensure_min_loop 12) with (ensure_min_loop (S 11)).
  rewrite ensure_min_loop_step.
  destruct (total d <? 12)%nat eqn:E; [|apply Nat.ltb_ge in E; lia].
  unfold setdefault_append. rewrite Hd.
  rewrite (ensure_min_loop_extra 11 (total d + 1) d _ Hd) by lia.
  rewrite (seq_unfold (total d) (12 - total d)) by lia. cbn [map app].
  replace (12 - (total d + 1))%nat with (12 - total d - 1)%nat by lia.
  replace (total d + 1)%nat with (S (total d)) by lia.
  reflexivity.
Qed.

(** The loop is left only when its condition is false. *)
Lemma ensure_min_exit (d : dict) : (12 <= snd (ensure_min d))%nat.
Proof.
  unfold ensure_min.
  assert (H : forall fuel t d', (12 - t <= fuel)%nat ->
            (12 <= snd (ensure_min_loop fuel t d'))%nat).
  { induction fuel as [|fuel IH]; intros t d' Hf.
    - cbn [ensure_min_loop snd]. lia.
    - rewrite ensure_min_loop_step.
      destruct (t <? 12)%nat eqn:E.
      + apply IH. lia.
      + apply Nat.ltb_ge in E. exact E. }
  apply H. lia.
Qed.

Lemma ensure_min_enough (d : dict) :
  (12 <= total d)%nat -> ensure_min d = (d, total d).
Proof. intros H. unfold ensure_min. apply ensure_min_loop_done. exact H. Qed.

(** ** Invariants of the parsing loops *)

Ltac split_ifs :=
  repeat match goal with
         | |- context [if ?b then _ else _] => destruct b eqn:?
         | |- context [match current_key ?st with _ => _ end] =>
             destruct (current_key st) eqn:?
         end.

Lemma render_line_no_extra (st : pstate) (l : string) :
  get "Extra Practice" (sections st) = None ->
  get "Extra Practice" (sections (render_line st l)) = None.
Proof.
  intros H. unfold render_line. split_ifs; simpl; auto;
    try (rewrite get_set_other by reflexivity; exact H).
  apply get_append_at_none. exact H.
Qed.

Lemma button_line_no_extra (st : pstate) (l : string) :
  get "Extra Practice" (sections st) = None ->
  get "Extra Practice" (sections (button_line st l)) = None.
Proof.
  intros H. unfold button_line. split_ifs; simpl; auto.
  apply get_append_at_none. exact H.
Qed.

Lemma fold_no_extra (step : pstate -> string -> pstate) :
  (forall st l, get "Extra Practice" (sections st) = None ->
                get "Extra Practice" (sections (step st l)) = None) ->
  forall ls st, get "Extra Practice" (sections st) = None ->
                get "Extra Practice" (sections (fold_left step ls st)) = None.
Proof.
  intros Hstep ls. induction ls as [|l ls IH]; simpl; intros st H; auto.
Qed.

Lemma render_pass_no_extra (text child : string) :
  get "Extra Practice" (sections (render_pass text child)) = None.
Proof.
  unfold render_pass. apply fold_no_extra; [apply render_line_no_extra|].
  reflexivity.
Qed.

Lemma button_pass_no_extra (text child : string) :
  get "Extra Practice" (sections (button_pass text child)) = None.
Proof.
  unfold button_pass. apply fold_no_extra; [apply button_line_no_extra|].
  reflexivity.
Qed.

(** ** C1: the backfill to twelve questions *)

(** The filler appended at running total [t] carries the number [t + 1]. *)
Lemma fillers_numbered (t n : nat) :
  map practice_question (seq t n) =
  map (fun k => "Practice question " +:+
                NilEmpty.string_of_uint (Nat.to_uint k) +:+
                ": Draw and count stars or cars.")
    (seq (t + 1) n).
Proof.
  replace (t + 1)%nat with (S t) by lia.
  rewrite <- seq_shift, map_map. apply map_ext. intros k.
  unfold practice_question, str_of_nat.
  replace (k + 1)%nat with (S k) by lia. reflexivity.
Qed.

(** C1.  In both parsers, when the sections collected from the text hold
    [t] questions with [t < 12], the result holds exactly twelve: the
    collected sections are kept and a last section "Extra Practice" holds
    the [12 - t] missing ones, which are, in order, the texts
    "Practice question k: Draw and count stars or cars." for [k] from
    [t + 1] to 12 in decimal, each number being the running total at the
    time the filler is appended plus one; the loop stops with its counter
    at twelve. *)
Theorem backfill_to_twelve (text child : string) :
  (let d := sections (render_pass text child) in
   (total d < 12)%nat ->
   ws_sections (render_html_worksheet text child) =
     d ++ [("Extra Practice",
            map (fun k => "Practice question " +:+
                          NilEmpty.string_of_uint (Nat.to_uint k) +:+
                          ": Draw and count stars or cars.")
              (seq (total d + 1) (12 - total d)))] /\
   total (ws_sections (render_html_worksheet text child)) = 12%nat /\
   snd (ensure_min d) = 12%nat) /\
  (let d := sections (button_pass text child) in
   (total d < 12)%nat ->
   ws_sections (generate_worksheet text child) =
     d ++ [("Extra Practice",
            map (fun k => "Practice question " +:+
                          NilEmpty.string_of_uint (Nat.to_uint k) +:+
                          ": Draw and count stars or cars.")
              (seq (total d + 1) (12 - total d)))] /\
   total (ws_sections (generate_worksheet text child)) = 12%nat /\
   snd (ensure_min d) = 12%nat).
Proof.
  split; cbv zeta; intros Hlt.
  - unfold render_html_worksheet; cbn [ws_sections].
    rewrite (ensure_min_short _ (render_pass_no_extra text child) Hlt).
    cbn [fst snd]. rewrite <- fillers_numbered.
    split; [reflexivity|]. split; [|reflexivity].
    rewrite total_app, total_single, length_map, length_seq. lia.
  - unfold generate_worksheet; cbn [ws_sections].
    rewrite (ensure_min_short _ (button_pass_no_extra text child) Hlt).
    cbn [fst snd]. rewrite <- fillers_numbered.
    split; [reflexivity|]. split; [|reflexivity].
    rewrite total_app, total_single, length_map, length_seq. lia.
Qed.

Lemma backfill_to_twelve_witness :
  (total (sections (render_pass Samples.space_math "Landon")) < 12)%nat /\
  (total (sections (button_pass Samples.space_math "Landon")) < 12)%nat /\
  ws_sections (render_html_worksheet Samples.space_math "Landon") =
    [("Part A", ["Count 3 rockets"; "Add 2+2"]);
     ("Extra Practice",
      ["Practice question 3: Draw and count stars or cars.";
       "Practice question 4: Draw and count stars or cars.";
       "Practice question 5: Draw and count stars or cars.";
       "Practice question 6: Draw and count stars or cars.";
       "Practice question 7: Draw and count stars or cars.";
       "Practice question 8: Draw and count stars or cars.";
       "Practice question 9: Draw and count stars or cars.";
       "Practice question 10: Draw and count stars or cars.";
       "Practice question 11: Draw and count stars or cars.";
       "Practice question 12: Draw and count stars or cars."])] /\
  ws_sections (generate_worksheet Samples.space_math "Landon") =
    [("Part A", ["Count 3 rockets"; "Add 2+2"]);
     ("Part B", []); ("Part C", []);
     ("Extra Practice",
      ["Practice question 3: Draw and count stars or cars.";
       "Practice question 4: Draw and count stars or cars.";
       "Practice question 5: Draw and count stars or cars.";
       "Practice question 6: Draw and count stars or cars.";
       "Practice question 7: Draw and count stars or cars.";
       "Practice question 8: Draw and count stars or cars.";
       "Practice question 9: Draw and count stars or cars.";
       "Practice question 10: Draw and count stars or cars.";
       "Practice question 11: Draw and count stars or cars.";
       "Practice question 12: Draw and count stars or cars."])] /\
  total (ws_sections (render_html_worksheet Samples.space_math "Landon")) = 12%nat /\
  total (ws_sections (generate_worksheet Samples.space_math "Landon")) = 12%nat.
Proof.
  assert (H1 : (total (sections (render_pass Samples.space_math "Landon")) < 12)%nat)
    by (vm_compute; lia).
  assert (H2 : (total (sections (button_pass Samples.space_math "Landon")) < 12)%nat)
    by (vm_compute; lia).
  destruct (backfill_to_twelve Samples.space_math "Landon") as [R B].
  destruct (R H1) as (R1 & R2 & _). destruct (B H2) as (B1 & B2 & _).
  split; [exact H1|]. split; [exact H2|].
  split; [rewrite R1; vm_compute; reflexivity|].
  split; [rewrite B1; vm_compute; reflexivity|].
  split; [exact R2|exact B2].
Defined.

(** ** Header lines *)

(** Two prefixes of one text are prefixes of one another. *)
Lemma prefix_comparable (p q u : string) :
  String.prefix p u = true -> String.prefix q u = true ->
  String.prefix p q = true \/ String.prefix q p = true.
Proof.
  assert (Hnil : forall s, String.prefix "" s = true) by (intros []; reflexivity).
  revert p q. induction u as [|c u IH]; intros p q Hp Hq.
  - destruct p; [|discriminate Hp]. left. apply Hnil.
  - destruct p as [|a p]; [left; apply Hnil|].
    destruct q as [|b q]; [right; apply Hnil|].
    cbn [String.prefix] in *.
    destruct (ascii_dec a c) as [->|]; [|discriminate Hp].
    destruct (ascii_dec b c) as [->|]; [|discriminate Hq].
    destruct (ascii_dec c c) as [_|Hne]; [|congruence].
    apply IH; assumption.
Qed.

Lemma startswith_exclusive (p q u : string) :
  String.prefix p q = false -> String.prefix q p = false ->
  startswith p u = true -> startswith q u = false.
Proof.
  unfold startswith. intros Hpq Hqp Hp.
  destruct (String.prefix q u) eqn:Hq; [|reflexivity].
  destruct (prefix_comparable p q u Hp Hq); congruence.
Qed.

(** Decides the header tests that come before the one known to hold. *)
Ltac other_headers H :=
  repeat match goal with
         | |- context [startswith ?q ?u] =>
             lazymatch type of H with
             | startswith q u = true => rewrite H
             | startswith ?p u = true =>
                 rewrite (startswith_exclusive p q u eq_refl eq_refl H)
             end
         end.

Lemma partition_at_absent (c : ascii) (s : string) :
  mem_char c s = false -> partition_at c s = None.
Proof.
  induction s as [|d s IH]; cbn [mem_char partition_at]; [reflexivity|].
  intros H. apply orb_false_elim in H as [Hc Hs].
  rewrite Ascii.eqb_sym, Hc, (IH Hs). reflexivity.
Qed.

Lemma partition_at_first (c : ascii) (a b : string) :
  mem_char c a = false -> partition_at c (a +:+ String c b) = Some (a, b).
Proof.
  induction a as [|d a IH]; simpl.
  - intros _. rewrite Ascii.eqb_refl. reflexivity.
  - intros H. apply orb_false_elim in H as [Hc Hs].
    rewrite Ascii.eqb_sym, Hc, (IH Hs). reflexivity.
Qed.

(** [l.split(":", 1)[-1].strip()] on a line without a colon is the whole
    line, trimmed. *)
Lemma header_value_no_colon (l : string) :
  has_colon l = false -> header_value l = strip l.
Proof.
  intros H. unfold header_value, split1.
  rewrite (partition_at_absent _ _ H). reflexivity.
Qed.

(** On a line with a colon it is the text after the first colon, trimmed. *)
Lemma header_value_colon (a b : string) :
  has_colon a = false -> header_value (a +:+ String ":" b) = strip b.
Proof.
  intros H. unfold header_value, split1.
  rewrite (partition_at_first _ _ _ H). reflexivity.
Qed.

(** What one turn of either loop does on each kind of header line. *)
Lemma render_line_title (st : pstate) (l : string) :
  startswith "TITLE" (upper l) = true ->
  render_line st l = set_title (header_value l) st.
Proof. intros H. unfold render_line. other_headers H. reflexivity. Qed.

Lemma render_line_instructions (st : pstate) (l : string) :
  startswith "INSTRUCTIONS" (upper l) = true ->
  render_line st l = set_instructions (header_value l) st.
Proof. intros H. unfold render_line. other_headers H. reflexivity. Qed.

Lemma render_line_tips (st : pstate) (l : string) :
  startswith "PARENT TIPS" (upper l) = true ->
  render_line st l = set_tips (header_value l) st.
Proof. intros H. unfold render_line. other_headers H. reflexivity. Qed.

Lemma render_line_part_a (st : pstate) (l : string) :
  startswith "PART A" (upper l) = true ->
  render_line st l =
    set_sections (set "Part A" [] (sections st)) (set_current_key "Part A" st).
Proof. intros H. unfold render_line. other_headers H. reflexivity. Qed.

Lemma render_line_part_b (st : pstate) (l : string) :
  startswith "PART B" (upper l) = true ->
  render_line st l =
    set_sections (set "Part B" [] (sections st)) (set_current_key "Part B" st).
Proof. intros H. unfold render_line. other_headers H. reflexivity. Qed.

Lemma render_line_part_c (st : pstate) (l : string) :
  startswith "PART C" (upper l) = true ->
  render_line st l =
    set_sections (set "Part C" [] (sections st)) (set_current_key "Part C" st).
Proof. intros H. unfold render_line. other_headers H. reflexivity. Qed.

Lemma button_line_title (st : pstate) (l : string) :
  startswith "TITLE" (upper l) = true ->
  button_line st l = set_title (header_value l) st.
Proof. intros H. unfold button_line. other_headers H. reflexivity. Qed.

Lemma button_line_instructions (st : pstate) (l : string) :
  startswith "INSTRUCTIONS" (upper l) = true ->
  button_line st l = set_instructions (header_value l) st.
Proof. intros H. unfold button_line. other_headers H. reflexivity. Qed.

Lemma button_line_tips (st : pstate) (l : string) :
  startswith "PARENT TIPS" (upper l) = true ->
  button_line st l = set_tips (header_value l) st.
Proof. intros H. unfold button_line. other_headers H. reflexivity. Qed.

Lemma button_line_part_a (st : pstate) (l : string) :
  startswith "PART A" (upper l) = true ->
  button_line st l = set_current_key "Part A" st.
Proof. intros H. unfold button_line. other_headers H. reflexivity. Qed.

Lemma button_line_part_b (st : pstate) (l : string) :
  startswith "PART B" (upper l) = true ->
  button_line st l = set_current_key "Part B" st.
Proof. intros H. unfold button_line. other_headers H. reflexivity. Qed.

Lemma button_line_part_c (st : pstate) (l : string) :
  startswith "PART C" (upper l) = true ->
  button_line st l = set_current_key "Part C" st.
Proof. intros H. unfold button_line. other_headers H. reflexivity. Qed.

(** ** C3: header lines without a colon *)

(** C3, as the code has it.  On a line without a colon, [split(":", 1)]
    returns the line alone and [[-1]] selects it: a TITLE, INSTRUCTIONS or
    PARENT TIPS line sets its field to the whole trimmed line, header word
    included, in both parsers; a PART A, PART B or PART C line switches the
    cursor to its section, with or without a colon. *)
Theorem header_without_colon (st : pstate) (l : string) :
  has_colon l = false ->
  (startswith "TITLE" (upper l) = true ->
   title (render_line st l) = strip l /\ title (button_line st l) = strip l) /\
  (startswith "INSTRUCTIONS" (upper l) = true ->
   instructions (render_line st l) = strip l /\
   instructions (button_line st l) = strip l) /\
  (startswith "PARENT TIPS" (upper l) = true ->
   tips (render_line st l) = strip l /\ tips (button_line st l) = strip l) /\
  (startswith "PART A" (upper l) = true ->
   current_key (render_line st l) = Some "Part A" /\
   current_key (button_line st l) = Some "Part A") /\
  (startswith "PART B" (upper l) = true ->
   current_key (render_line st l) = Some "Part B" /\
   current_key (button_line st l) = Some "Part B") /\
  (startswith "PART C" (upper l) = true ->
   current_key (render_line st l) = Some "Part C" /\
   current_key (button_line st l) = Some "Part C").
Proof.
  intros Hno. pose proof (header_value_no_colon l Hno) as Hv.
  repeat apply conj; intros H.
  - rewrite render_line_title, button_line_title by exact H.
    cbn [title set_title]. auto.
  - rewrite render_line_instructions, button_line_instructions by exact H.
    cbn [instructions set_instructions]. auto.
  - rewrite render_line_tips, button_line_tips by exact H.
    cbn [tips set_tips]. auto.
  - rewrite render_line_part_a, button_line_part_a by exact H. auto.
  - rewrite render_line_part_b, button_line_part_b by exact H. auto.
  - rewrite render_line_part_c, button_line_part_c by exact H. auto.
Qed.

Lemma header_without_colon_witness :
  has_colon "TITLE Space Math" = false /\
  startswith "TITLE" (upper "TITLE Space Math") = true /\
  title (render_line (render_init "Landon") "TITLE Space Math") =
    strip "TITLE Space Math" /\
  has_colon "Part A" = false /\
  startswith "PART A" (upper "Part A") = true /\
  current_key (button_line (button_init "Landon") "Part A") = Some "Part A".
Proof.
  assert (H1 : has_colon "TITLE Space Math" = false) by reflexivity.
  assert (H2 : startswith "TITLE" (upper "TITLE Space Math") = true)
    by reflexivity.
  assert (H3 : has_colon "Part A" = false) by reflexivity.
  assert (H4 : startswith "PART A" (upper "Part A") = true) by reflexivity.
  split; [exact H1|]. split; [exact H2|].
  split; [exact (proj1 (proj1 (header_without_colon
                   (render_init "Landon") "TITLE Space Math" H1) H2))|].
  split; [exact H3|]. split; [exact H4|].
  exact (proj2 (proj1 (proj2 (proj2 (proj2 (header_without_colon
           (button_init "Landon") "Part A" H3)))) H4)).
Defined.

(** A TITLE line without a colon does change the title: the field held the
    default before the line and holds the whole line after it. *)
Lemma header_without_colon_counterexample :
  has_colon "TITLE Space Math" = false /\
  startswith "TITLE" (upper "TITLE Space Math") = true /\
  title (render_init "Landon") = "Landon’s Worksheet" /\
  title (render_line (render_init "Landon") "TITLE Space Math") =
    "TITLE Space Math" /\
  title (render_line (render_init "Landon") "TITLE Space Math") <>
    title (render_init "Landon") /\
  title (button_line (button_init "Landon") "TITLE Space Math") <>
    title (button_init "Landon").
Proof.
  repeat apply conj; try reflexivity; vm_compute; discriminate.
Qed.

(** ** C4: a PART header read twice *)

(** In [render_html_worksheet] every PART header assigns a new empty list! *)
Lemma render_line_part_resets (st : pstate) (l : string) :
  (startswith "PART A" (upper l) = true ->
   get "Part A" (sections (render_line st l)) = Some []) /\
  (startswith "PART B" (upper l) = true ->
   get "Part B" (sections (render_line st l)) = Some []) /\
  (startswith "PART C" (upper l) = true ->
   get "Part C" (sections (render_line st l)) = Some []).
Proof.
  repeat apply conj; intros H.
  - rewrite render_line_part_a by exact H. apply get_set_same.
  - rewrite render_line_part_b by exact H. apply get_set_same.
  - rewrite render_line_part_c by exact H. apply get_set_same.
Qed.

(** In the button branch a PART header leaves every list as it is. *)
Lemma button_line_part_keeps (st : pstate) (l : string) :
  is_part_header l = true -> is_scalar_header l = false ->
  sections (button_line st l) = sections st.
Proof.
  unfold is_part_header, is_scalar_header. intros Hp Hs.
  apply orb_false_elim in Hs as [Hs Ht].
  apply orb_false_elim in Hs as [Hti Hin].
  unfold button_line. rewrite Hti, Hin, Ht.
  destruct (startswith "PART A" (upper l)); [reflexivity|].
  destruct (startswith "PART B" (upper l)); [reflexivity|].
  destruct (startswith "PART C" (upper l)); [reflexivity|].
  discriminate Hp.
Qed.

(** C4, at the text PART A / 1. Count 3 rockets / PART A / 2. Add 2+2:
    [render_html_worksheet] keeps only the question read after the second
    header, the button branch keeps both. *)
Theorem repeated_part_header :
  get "Part A" (ws_sections (render_html_worksheet Samples.part_a_twice "Landon"))
    = Some ["Add 2+2"] /\
  get "Part A" (ws_sections (generate_worksheet Samples.part_a_twice "Landon"))
    = Some ["Count 3 rockets"; "Add 2+2"].
Proof. split; vm_compute; reflexivity. Qed.

(** ** C6: question lines *)

(** [render_html_worksheet]: a line that is no header is cleaned and
    appended to the current section when the cleaned text is not empty;
    without a current section it is dropped. *)
Lemma render_line_question (st : pstate) (l : string) :
  is_header l = false ->
  render_line st l =
    match current_key st with
    | Some k =>
        if is_empty (clean_question l) then st
        else set_sections (append_at k (clean_question l) (sections st)) st
    | None => st
    end.
Proof.
  unfold is_header, is_scalar_header, is_part_header. intros H.
  apply orb_false_elim in H as [Hs Hp].
  apply orb_false_elim in Hs as [Hs Ht].
  apply orb_false_elim in Hs as [Hti Hin].
  apply orb_false_elim in Hp as [Hp Hc].
  apply orb_false_elim in Hp as [Ha Hb].
  unfold render_line. rewrite Hti, Hin, Ht, Ha, Hb, Hc. reflexivity.
Qed.

(** The button branch tests the line, not the cleaned text. *)
Lemma button_line_question (st : pstate) (l : string) :
  is_header l = false ->
  button_line st l =
    match current_key st with
    | Some k =>
        if is_empty (strip l) then st
        else set_sections (append_at k (clean_question l) (sections st)) st
    | None => st
    end.
Proof.
  unfold is_header, is_scalar_header, is_part_header. intros H.
  apply orb_false_elim in H as [Hs Hp].
  apply orb_false_elim in Hs as [Hs Ht].
  apply orb_false_elim in Hs as [Hti Hin].
  apply orb_false_elim in Hp as [Hp Hc].
  apply orb_false_elim in Hp as [Ha Hb].
  unfold button_line. rewrite Hti, Hin, Ht, Ha, Hb, Hc.
  destruct (current_key st); [|reflexivity].
  destruct (is_empty (strip l)); reflexivity.
Qed.

(** C6, at the text PART A / 1. : the line "1." is empty once cleaned;
    [render_html_worksheet] appends nothing, the button branch appends the
    empty question. *)
Theorem marker_only_line :
  is_header "1." = false /\
  clean_question "1." = "" /\
  get "Part A" (ws_sections (render_html_worksheet Samples.marker_only "Landon"))
    = Some [] /\
  get "Part A" (ws_sections (generate_worksheet Samples.marker_only "Landon"))
    = Some [""].
Proof. repeat apply conj; vm_compute; reflexivity. Qed.

(** ** C5: the last TITLE, INSTRUCTIONS or PARENT TIPS line *)

Lemma render_line_keeps_title (st : pstate) (l : string) :
  startswith "TITLE" (upper l) = false ->
  title (render_line st l) = title st.
Proof. intros H. unfold render_line. rewrite H. split_ifs; reflexivity. Qed.

Lemma render_line_keeps_instructions (st : pstate) (l : string) :
  startswith "INSTRUCTIONS" (upper l) = false ->
  instructions (render_line st l) = instructions st.
Proof.
  intros H. unfold render_line.
  destruct (startswith "TITLE" (upper l)); [reflexivity|].
  rewrite H. split_ifs; reflexivity.
Qed.

Lemma render_line_keeps_tips (st : pstate) (l : string) :
  startswith "PARENT TIPS" (upper l) = false ->
  tips (render_line st l) = tips st.
Proof.
  intros H. unfold render_line.
  destruct (startswith "TITLE" (upper l)); [reflexivity|].
  destruct (startswith "INSTRUCTIONS" (upper l)); [reflexivity|].
  rewrite H. split_ifs; reflexivity.
Qed.

Lemma fold_keeps {A : Type} (field : pstate -> A) (test : string -> bool) :
  (forall st l, test l = false -> field (render_line st l) = field st) ->
  forall ls st,
    Forall (fun x => test x = false) ls ->
    field (fold_left render_line ls st) = field st.
Proof.
  intros Hstep ls. induction ls as [|l ls IH]; intros st Hall; [reflexivity|].
  inversion Hall as [|? ? Hl Hls]; subst. cbn [fold_left].
  rewrite (IH _ Hls). apply Hstep. exact Hl.
Qed.

Lemma render_line_scalar_header (st : pstate) (l : string) :
  is_scalar_header l = true ->
  current_key (render_line st l) = current_key st /\
  sections (render_line st l) = sections st.
Proof.
  unfold is_scalar_header. intros H.
  destruct (startswith "TITLE" (upper l)) eqn:Hti.
  { rewrite render_line_title by exact Hti. split; reflexivity. }
  destruct (startswith "INSTRUCTIONS" (upper l)) eqn:Hin.
  { rewrite render_line_instructions by exact Hin. split; reflexivity. }
  destruct (startswith "PARENT TIPS" (upper l)) eqn:Hpt; [|discriminate H].
  rewrite render_line_tips by exact Hpt. split; reflexivity.
Qed.

(** C5, as the code has it.  Let [l] be a line of the text and [v] the
    trimmed text after its first colon, or the whole trimmed line when it
    holds no colon.  If [l] is the last TITLE line, the title is [v]; if it
    is the last INSTRUCTIONS (PARENT TIPS) line, the instructions (tips) are
    [v], or the fixed fallback sentence when [v] is empty.  Such a line
    changes neither the cursor nor the sections. *)
Theorem last_header_line_wins
  (text child : string) (pre post : list string) (l v : string) :
  render_lines text = pre ++ l :: post ->
  ((exists a b, l = a +:+ String ":" b /\ has_colon a = false /\ v = strip b) \/
   (has_colon l = false /\ v = strip l)) ->
  (startswith "TITLE" (upper l) = true ->
   Forall (fun x => startswith "TITLE" (upper x) = false) post ->
   ws_title (render_html_worksheet text child) = v) /\
  (startswith "INSTRUCTIONS" (upper l) = true ->
   Forall (fun x => startswith "INSTRUCTIONS" (upper x) = false) post ->
   ws_instructions (render_html_worksheet text child) =
     if is_empty v then default_instructions else v) /\
  (startswith "PARENT TIPS" (upper l) = true ->
   Forall (fun x => startswith "PARENT TIPS" (upper x) = false) post ->
   ws_tips (render_html_worksheet text child) =
     if is_empty v then default_tips else v) /\
  (is_scalar_header l = true ->
   forall st, current_key (render_line st l) = current_key st /\
              sections (render_line st l) = sections st).
Proof.
  intros Hlines Hv.
  assert (Hval : header_value l = v).
  { destruct Hv as [(a & b & -> & Ha & ->)|[Hno ->]].
    - apply header_value_colon. exact Ha.
    - apply header_value_no_colon. exact Hno. }
  unfold render_html_worksheet, render_pass. rewrite Hlines.
  rewrite fold_left_app. cbn [fold_left ws_title ws_instructions ws_tips].
  repeat apply conj.
  - intros H Hpost.
    rewrite (fold_keeps title _ render_line_keeps_title post _ Hpost).
    rewrite render_line_title by exact H. exact Hval.
  - intros H Hpost.
    rewrite (fold_keeps instructions _ render_line_keeps_instructions
               post _ Hpost).
    rewrite render_line_instructions by exact H.
    cbn [instructions set_instructions]. rewrite Hval. reflexivity.
  - intros H Hpost.
    rewrite (fold_keeps tips _ render_line_keeps_tips post _ Hpost).
    rewrite render_line_tips by exact H.
    cbn [tips set_tips]. rewrite Hval. reflexivity.
  - intros H st. apply render_line_scalar_header. exact H.
Qed.

Lemma last_header_line_wins_witness :
  ws_title (render_html_worksheet Samples.space_math "Landon") = "Space Math" /\
  ws_tips (render_html_worksheet Samples.space_math "Landon") = "Go slow".
Proof.
  split.
  - refine (proj1 (last_header_line_wins Samples.space_math "Landon"
      [] ["PART A"; "1. Count 3 rockets"; "2. Add 2+2"; "PARENT TIPS: Go slow"]
      "TITLE: Space Math" "Space Math" _ _) _ _).
    + vm_compute. reflexivity.
    + left. exists "TITLE", " Space Math". repeat split.
    + reflexivity.
    + repeat constructor.
  - refine (proj1 (proj2 (proj2 (last_header_line_wins Samples.space_math
      "Landon" ["TITLE: Space Math"; "PART A"; "1. Count 3 rockets"; "2. Add 2+2"]
      [] "PARENT TIPS: Go slow" "Go slow" _ _))) _ _).
    + vm_compute. reflexivity.
    + left. exists "PARENT TIPS", " Go slow". repeat split.
    + reflexivity.
    + constructor.
Defined.

(** The claim fails where the text after the colon is empty (the fallback
    sentence is used, not the empty text) and where the line has no colon
    (the whole line is used). *)
Lemma last_header_line_wins_counterexample :
  render_lines "INSTRUCTIONS:" = ["INSTRUCTIONS:"] /\
  strip "" = "" /\
  ws_instructions (render_html_worksheet "INSTRUCTIONS:" "Landon") <> "" /\
  ws_instructions (render_html_worksheet "INSTRUCTIONS:" "Landon") =
    default_instructions /\
  render_lines "TITLE Space Math" = ["TITLE Space Math"] /\
  ws_title (render_html_worksheet "TITLE Space Math" "Landon") =
    "TITLE Space Math".
Proof.
  repeat apply conj; try (vm_compute; reflexivity).
  vm_compute. discriminate.
Qed.

(** ** C7: a text without header lines *)

Lemma render_fold_discards (ls : list string) (st : pstate) :
  current_key st = None ->
  Forall (fun l => is_header l = false) ls ->
  fold_left render_line ls st = st.
Proof.
  intros Hcur Hall. induction Hall as [|l ls Hl _ IH]; [reflexivity|].
  cbn [fold_left]. rewrite (render_line_question st l Hl), Hcur. exact IH.
Qed.

(** When no line of the text is a header line, [render_html_worksheet]
    leaves the loop with its initial variables (every line is dropped, no
    section is created) and returns the fallback record: the title built
    from the child name as the source writes it (with the apostrophe
    U+2019), the two default sentences and the single section
    "Extra Practice" with the twelve fillers numbered 1 to 12. *)
Theorem no_header_lines_fallback (text child : string) :
  Forall (fun l => is_header l = false) (render_lines text) ->
  render_pass text child = render_init child /\
  render_html_worksheet text child =
    {| ws_title := child +:+ "’s Worksheet";
       ws_instructions :=
         "Read each question together and encourage pointing and counting.";
       ws_tips := "Celebrate effort and keep sessions short and fun.";
       ws_sections :=
         [("Extra Practice",
           ["Practice question 1: Draw and count stars or cars.";
            "Practice question 2: Draw and count stars or cars.";
            "Practice question 3: Draw and count stars or cars.";
            "Practice question 4: Draw and count stars or cars.";
            "Practice question 5: Draw and count stars or cars.";
            "Practice question 6: Draw and count stars or cars.";
            "Practice question 7: Draw and count stars or cars.";
            "Practice question 8: Draw and count stars or cars.";
            "Practice question 9: Draw and count stars or cars.";
            "Practice question 10: Draw and count stars or cars.";
            "Practice question 11: Draw and count stars or cars.";
            "Practice question 12: Draw and count stars or cars."])] |}.
Proof.
  intros Hall.
  assert (Hpass : render_pass text child = render_init child).
  { unfold render_pass. apply render_fold_discards; [reflexivity|exact Hall]. }
  split; [exact Hpass|].
  unfold render_html_worksheet. rewrite Hpass.
  unfold render_init. cbn [title instructions tips sections is_empty].
  match goal with
  | |- _ = {| ws_title := _; ws_instructions := _; ws_tips := _;
              ws_sections := ?d |} =>
      assert (Hs : fst (ensure_min []) = d) by (vm_compute; reflexivity)
  end.
  rewrite Hs. reflexivity.
Qed.

Lemma no_header_lines_fallback_witness :
  Forall (fun l => is_header l = false)
    (render_lines ("Count the stars" +:+ Samples.lf +:+ "2. Add 2+2")) /\
  ws_title (render_html_worksheet
              ("Count the stars" +:+ Samples.lf +:+ "2. Add 2+2") "Landon") =
    "Landon’s Worksheet".
Proof.
  assert (H : Forall (fun l => is_header l = false)
                (render_lines ("Count the stars" +:+ Samples.lf +:+ "2. Add 2+2"))).
  { vm_compute. repeat constructor. }
  split; [exact H|].
  exact (f_equal ws_title (proj2 (no_header_lines_fallback _ "Landon" H))).
Defined.

(** C7, at the text "Count the stars" (no header line) for the child
    "Landon".  [render_html_worksheet] returns the fallback record, but its
    default title is written with the apostrophe U+2019, not with the ASCII
    apostrophe of the button branch, which builds "Landon's Worksheet" on
    the same input. *)
Theorem fallback_title_apostrophe :
  Forall (fun l => is_header l = false) (render_lines "Count the stars") /\
  ws_title (render_html_worksheet "Count the stars" "Landon") =
    "Landon’s Worksheet" /\
  ws_title (render_html_worksheet "Count the stars" "Landon") <>
    "Landon's Worksheet" /\
  ws_title (generate_worksheet "Count the stars" "Landon") =
    "Landon's Worksheet" /\
  ws_instructions (render_html_worksheet "Count the stars" "Landon") =
    "Read each question together and encourage pointing and counting." /\
  ws_tips (render_html_worksheet "Count the stars" "Landon") =
    "Celebrate effort and keep sessions short and fun." /\
  keys (ws_sections (render_html_worksheet "Count the stars" "Landon")) =
    ["Extra Practice"] /\
  total (ws_sections (render_html_worksheet "Count the stars" "Landon")) = 12%nat.
Proof.
  split; [vm_compute; repeat constructor|].
  repeat apply conj; try (vm_compute; reflexivity).
  vm_compute. discriminate.
Qed.

(** ** The chat history cache *)

Import History.

Lemma serialized_is_map (l : list message) (out : list Json.value) :
  fold_left (fun acc m => acc ++ [serialize m]) l out = out ++ map serialize l.
Proof.
  revert out. induction l as [|m l IH]; intros out; cbn [fold_left map].
  - rewrite app_nil_r. reflexivity.
  - rewrite IH, <- app_assoc. reflexivity.
Qed.

Lemma add_messages_is_map (l : list Json.value) (h : history) :
  messages (fold_left (fun h msg => add_message (Plain msg) h) l h) =
    messages h ++ map Plain l.
Proof.
  revert h. induction l as [|m l IH]; intros h; cbn [fold_left map].
  - rewrite app_nil_r. reflexivity.
  - rewrite IH. cbn [add_message messages]. rewrite <- app_assoc. reflexivity.
Qed.

Lemma length_last20 {A : Type} (l : list A) :
  length (last20 l) = Nat.min 20 (length l).
Proof. unfold last20. rewrite length_drop. lia. Qed.

(** The state a successful [save_session_history] leaves. *)
Lemma save_cached (J : Json.lib) (sid : string) (st : state) (h : history) :
  chat_history_store st !! sid = Some h ->
  save_session_history J sid st =
    (Ok tt,
     {| chat_history_store := chat_history_store st;
        files := <[filename sid :=
                     Json.dumps J (Json.Arr (map serialize (messages h)))]>
                   (files st);
        next_oid := next_oid st |}).
Proof.
  intros H. unfold save_session_history. rewrite H.
  rewrite (serialized_is_map _ []). reflexivity.
Qed.

(** What [get_session_history] reads from a file that [json.loads]
    accepts as a list. *)
Lemma load_messages_list
  (J : Json.lib) (sid text : string) (st : state) (items : list Json.value) :
  files st !! filename sid = Some text ->
  is_empty (strip text) = false ->
  Json.loads J (strip text) = Some (Json.Arr items) ->
  load_messages J sid st = Ok (map Plain (last20 items)).
Proof.
  intros Hf Hne Hl. unfold load_messages. rewrite Hf, Hne, Hl.
  cbn [slice_last20]. rewrite add_messages_is_map. reflexivity.
Qed.

(** ** C2: save, then a get without a cache entry *)

Lemma serialize_cases (l : list message) :
  map serialize l =
  map (fun m => match m with
                | HasModelDump d _ => d
                | HasDict d => d
                | Plain v => v
                end) l.
Proof. apply map_ext. intros []; reflexivity. Qed.

(** C2.  Let the cache hold a history [h] of [N] messages for a session,
    let [save_session_history] have returned, and let [json] read back
    what it writes for the saved list.  The saved form of a message is
    what its [model_dump] returns, else what its [dict] returns, else the
    message itself.  In any process whose cache has no entry for the
    session and whose files are the ones the save left,
    [get_session_history] returns a history whose messages are, in order,
    the saved forms of the last [min 20 N] messages of [h], held as plain
    loaded values, and caches it. *)
Theorem save_then_fresh_get
  (J : Json.lib) (sid : string) (st st1 st' : state) (h : history) :
  chat_history_store st !! sid = Some h ->
  save_session_history J sid st = (Ok tt, st1) ->
  Json.reads_back J
    (Json.Arr (map (fun m => match m with
                             | HasModelDump d _ => d
                             | HasDict d => d
                             | Plain v => v
                             end) (messages h))) ->
  chat_history_store st' !! sid = None ->
  files st' = files st1 ->
  exists h',
    fst (get_session_history J sid st') = Ok h' /\
    messages h' =
      map (fun m => Plain match m with
                          | HasModelDump d _ => d
                          | HasDict d => d
                          | Plain v => v
                          end)
        (drop (length (messages h) - 20) (messages h)) /\
    length (messages h') = Nat.min 20 (length (messages h)) /\
    chat_history_store (snd (get_session_history J sid st')) !! sid = Some h'.
Proof.
  intros Hh Hsave [Hne Hback] Hfresh Hfiles.
  rewrite (save_cached J sid st h Hh) in Hsave. injection Hsave as <-.
  cbn [files] in Hfiles. rewrite <- serialize_cases in Hne, Hback.
  assert (Hfile : files st' !! filename sid =
            Some (Json.dumps J (Json.Arr (map serialize (messages h))))).
  { rewrite Hfiles. apply lookup_insert_eq. }
  unfold get_session_history. rewrite Hfresh.
  rewrite (load_messages_list J sid _ st' _ Hfile Hne Hback).
  exists {| oid := next_oid st';
            messages := map Plain (last20 (map serialize (messages h))) |}.
  cbn [fst snd chat_history_store messages].
  split; [reflexivity|]. split; [|split].
  - unfold last20. rewrite length_map, serialize_cases, skipn_map, map_map.
    reflexivity.
  - rewrite length_map, length_last20, length_map. reflexivity.
  - apply lookup_insert_eq.
Qed.

Lemma save_then_fresh_get_witness :
  exists h',
    fst (get_session_history JsonText.reference "abc123"
           (Samples.started
              (files (snd (save_session_history JsonText.reference
                             "abc123" Samples.mixed_running))))) = Ok h' /\
    messages h' =
      Plain (Samples.chat "human" "Make a rocket worksheet") ::
      Plain (Samples.chat "ai" "TITLE: Space Math") ::
      map (fun n => Plain (Samples.chat "human" (Text.str_of_nat n))) (seq 0 18) /\
    length (messages h') = 20%nat.
Proof.
  destruct (save_then_fresh_get JsonText.reference "abc123"
              Samples.mixed_running
              (snd (save_session_history JsonText.reference
                      "abc123" Samples.mixed_running))
              (Samples.started
                 (files (snd (save_session_history JsonText.reference
                                "abc123" Samples.mixed_running))))
              Samples.mixed_history)
    as (h' & Hget & Hmsgs & Hlen & _).
  - vm_compute. reflexivity.
  - reflexivity.
  - split; vm_compute; reflexivity.
  - vm_compute. reflexivity.
  - reflexivity.
  - exists h'. split; [exact Hget|]. split.
    + rewrite Hmsgs. vm_compute. reflexivity.
    + rewrite Hlen. reflexivity.
Defined.

(** ** C8: loading a file that cannot be parsed, is empty or is absent *)




(** ** C9: two gets in a row *)

Lemma get_caches (J : Json.lib) (sid : string) (st st1 : state) (h : history) :
  get_session_history J sid st = (Ok h, st1) ->
  chat_history_store st1 !! sid = Some h.
Proof.
  unfold get_session_history.
  destruct (chat_history_store st !! sid) as [h0|] eqn:Hc.
  - intros [= -> <-]. exact Hc.
  - destruct (load_messages J sid st) as [msgs|e]; [|discriminate].
    intros [= <- <-]. cbn [chat_history_store]. apply lookup_insert_eq.
Qed.

(** C9.  When a call of [get_session_history] has returned [h] and left
    the state [st1], a second call for the same session returns the same
    object [h] (same identity, same messages) and leaves [st1] unchanged.
    It reads no file: the result is the same for any [json] module and
    whatever the files hold by then. *)
Theorem get_twice_same_history
  (J : Json.lib) (sid : string) (st st1 : state) (h : history) :
  get_session_history J sid st = (Ok h, st1) ->
  get_session_history J sid st1 = (Ok h, st1) /\
  forall (J' : Json.lib) (fs : gmap string string),
    get_session_history J' sid
      {| chat_history_store := chat_history_store st1;
         files := fs; next_oid := next_oid st1 |} =
      (Ok h,
       {| chat_history_store := chat_history_store st1;
          files := fs; next_oid := next_oid st1 |}).
Proof.
  intros Hget. pose proof (get_caches J sid st st1 h Hget) as Hc.
  split.
  - unfold get_session_history. rewrite Hc. reflexivity.
  - intros J' fs. unfold get_session_history.
    cbn [chat_history_store]. rewrite Hc. reflexivity.
Qed.

Lemma get_twice_same_history_witness :
  get_session_history JsonText.reference "worksheet_session"
    (snd (get_session_history JsonText.reference "worksheet_session"
            (Samples.started ∅))) =
  (Ok {| oid := 1%positive; messages := [] |},
   snd (get_session_history JsonText.reference "worksheet_session"
          (Samples.started ∅))).
Proof.
  refine (proj1 (get_twice_same_history JsonText.reference "worksheet_session"
                   (Samples.started ∅) _ _ _)).
  reflexivity.
Defined.

(** ** C10: saving a session that is not cached *)

(** C10.  For a session without a cache entry, [save_session_history]
    raises [KeyError] at the lookup and leaves the whole state as it was:
    no file is written or created. *)
Theorem save_uncached_raises (J : Json.lib) (sid : string) (st : state) :
  chat_history_store st !! sid = None ->
  save_session_history J sid st = (Raise (KeyError sid), st) /\
  files (snd (save_session_history J sid st)) = files st /\
  files (snd (save_session_history J sid st)) !! filename sid =
    files st !! filename sid.
Proof.
  intros H. unfold save_session_history. rewrite H.
  repeat split.
Qed.

Lemma save_uncached_raises_witness :
  save_session_history JsonText.reference "abc123" (Samples.started ∅) =
    (Raise (KeyError "abc123"), Samples.started ∅) /\
  files (snd (save_session_history JsonText.reference "abc123"
                (Samples.started ∅))) !! filename "abc123" = None.
Proof.
  destruct (save_uncached_raises JsonText.reference "abc123"
              (Samples.started ∅)) as (H1 & _ & H3).
  - reflexivity.
  - split; [exact H1|]. rewrite H3. reflexivity.
Defined.

(** * Further properties of the parsers *)

(** ** The cursor always names a section that exists *)

Lemma get_append_at_some (k k' x : string) (d : dict) :
  is_Some (get k d) -> is_Some (get k (append_at k' x d)).
Proof.
  intros [v Hv]. destruct (String.eqb k k') eqn:E.
  - apply String.eqb_eq in E. subst k'.
    rewrite (get_append_at_same _ _ _ _ Hv). eauto.
  - rewrite (get_append_at_other _ _ _ _ E), Hv. eauto.
Qed.

Definition cursor_present (st : pstate) : Prop :=
  match current_key st with
  | Some k => is_Some (get k (sections st))
  | None => True
  end.

(** The possible outcomes of one turn of each loop. *)
Lemma render_line_cases (P : pstate -> Prop) (st : pstate) (l : string) :
  P (set_title (header_value l) st) ->
  P (set_instructions (header_value l) st) ->
  P (set_tips (header_value l) st) ->
  (forall k, k = "Part A" \/ k = "Part B" \/ k = "Part C" ->
             P (set_sections (set k [] (sections st)) (set_current_key k st))) ->
  P st ->
  (forall k, current_key st = Some k ->
             is_empty (clean_question l) = false ->
             P (set_sections (append_at k (clean_question l) (sections st)) st)) ->
  P (render_line st l).
Proof.
  intros Hti Hin Htp Hpart Hst Hq. unfold render_line.
  split_ifs; auto.
Qed.

Lemma button_line_cases (P : pstate -> Prop) (st : pstate) (l : string) :
  P (set_title (header_value l) st) ->
  P (set_instructions (header_value l) st) ->
  P (set_tips (header_value l) st) ->
  (forall k, k = "Part A" \/ k = "Part B" \/ k = "Part C" ->
             P (set_current_key k st)) ->
  P st ->
  (forall k, current_key st = Some k ->
             P (set_sections (append_at k (clean_question l) (sections st)) st)) ->
  P (button_line st l).
Proof.
  intros Hti Hin Htp Hpart Hst Hq. unfold button_line.
  split_ifs; auto.
Qed.

Lemma render_line_cursor_present (st : pstate) (l : string) :
  cursor_present st -> cursor_present (render_line st l).
Proof.
  intros H. apply render_line_cases; auto.
  - intros k _. unfold cursor_present. cbn. rewrite get_set_same. eauto.
  - intros k Hk _. unfold cursor_present in *. cbn. rewrite Hk in *.
    apply get_append_at_some. exact H.
Qed.

(** In the button branch the three sections exist from the start. *)
Definition parts_present (st : pstate) : Prop :=
  is_Some (get "Part A" (sections st)) /\
  is_Some (get "Part B" (sections st)) /\
  is_Some (get "Part C" (sections st)) /\
  match current_key st with
  | Some k => k = "Part A" \/ k = "Part B" \/ k = "Part C"
  | None => True
  end.

Lemma button_line_parts_present (st : pstate) (l : string) :
  parts_present st -> parts_present (button_line st l).
Proof.
  intros H. apply button_line_cases; auto.
  - intros k Hk. destruct H as (Ha & Hb & Hc & _).
    unfold parts_present. cbn. auto.
  - intros k Hk. destruct H as (Ha & Hb & Hc & Hcur).
    unfold parts_present. cbn. auto 10 using get_append_at_some.
Qed.

Lemma parts_present_cursor (st : pstate) :
  parts_present st -> cursor_present st.
Proof.
  unfold parts_present, cursor_present. intros (Ha & Hb & Hc & Hk).
  destruct (current_key st) as [k|]; [|exact I].
  destruct Hk as [->|[->| ->]]; assumption.
Qed.

Lemma fold_invariant (step : pstate -> string -> pstate) (P : pstate -> Prop) :
  (forall st l, P st -> P (step st l)) ->
  forall ls st, P st -> P (fold_left step ls st).
Proof.
  intros Hstep ls. induction ls as [|l ls IH]; intros st H; cbn [fold_left]; auto.
Qed.

(** X1.  After any number of lines, in either parser, the cursor is unset or
    names a key of [sections]: the statement [sections[current_key].append]
    never raises [KeyError]. *)
Theorem cursor_names_existing_section (ls : list string) (child : string) :
  cursor_present (fold_left render_line ls (render_init child)) /\
  cursor_present (fold_left button_line ls (button_init child)).
Proof.
  split.
  - apply fold_invariant; [apply render_line_cursor_present|exact I].
  - apply parts_present_cursor.
    apply fold_invariant; [apply button_line_parts_present|].
    unfold parts_present, button_init. cbn. eauto 10.
Qed.

(** ** What the backfill does to the collected sections *)

Definition fillers (t : nat) : list string :=
  map practice_question (seq t (12 - t)).

Lemma ensure_min_sections (d : dict) :
  get "Extra Practice" d = None ->
  fst (ensure_min d) =
    if (total d <? 12)%nat then d ++ [("Extra Practice", fillers (total d))]
    else d.
Proof.
  intros Hd. destruct (total d <? 12)%nat eqn:E.
  - apply Nat.ltb_lt in E. rewrite (ensure_min_short d Hd E). reflexivity.
  - apply Nat.ltb_ge in E. rewrite (ensure_min_enough d E). reflexivity.
Qed.

Lemma total_backfilled (d : dict) :
  total (if (total d <? 12)%nat
         then d ++ [("Extra Practice", fillers (total d))] else d) =
    Nat.max 12 (total d).
Proof.
  destruct (total d <? 12)%nat eqn:E.
  - apply Nat.ltb_lt in E. unfold fillers.
    rewrite total_app, total_single, length_map, length_seq. lia.
  - apply Nat.ltb_ge in E. lia.
Qed.

Lemma worksheet_sections_backfilled (text child : string) :
  ws_sections (render_html_worksheet text child) =
    (if (total (sections (render_pass text child)) <? 12)%nat
     then sections (render_pass text child) ++
          [("Extra Practice", fillers (total (sections (render_pass text child))))]
     else sections (render_pass text child)) /\
  ws_sections (generate_worksheet text child) =
    (if (total (sections (button_pass text child)) <? 12)%nat
     then sections (button_pass text child) ++
          [("Extra Practice", fillers (total (sections (button_pass text child))))]
     else sections (button_pass text child)).
Proof.
  split.
  - unfold render_html_worksheet. cbn [ws_sections].
    apply (ensure_min_sections _ (render_pass_no_extra text child)).
  - unfold generate_worksheet. cbn [ws_sections].
    apply (ensure_min_sections _ (button_pass_no_extra text child)).
Qed.

(** X2.  In both parsers the sections handed to the template are the collected
    ones, unchanged and in the same order, followed by "Extra Practice"
    only when fewer than twelve questions were collected; the number of
    questions is the larger of twelve and the collected number. *)
Theorem backfill_keeps_collected (text child : string) :
  (ws_sections (render_html_worksheet text child) =
     (if (total (sections (render_pass text child)) <? 12)%nat
      then sections (render_pass text child) ++
           [("Extra Practice", fillers (total (sections (render_pass text child))))]
      else sections (render_pass text child)) /\
   total (ws_sections (render_html_worksheet text child)) =
     Nat.max 12 (total (sections (render_pass text child)))) /\
  (ws_sections (generate_worksheet text child) =
     (if (total (sections (button_pass text child)) <? 12)%nat
      then sections (button_pass text child) ++
           [("Extra Practice", fillers (total (sections (button_pass text child))))]
      else sections (button_pass text child)) /\
   total (ws_sections (generate_worksheet text child)) =
     Nat.max 12 (total (sections (button_pass text child)))).
Proof.
  destruct (worksheet_sections_backfilled text child) as [Hr Hb].
  split; (split; [assumption|]).
  - rewrite Hr. apply total_backfilled.
  - rewrite Hb. apply total_backfilled.
Qed.

(** ** Section names *)

Lemma keys_append_at (k x : string) (d : dict) : keys (append_at k x d) = keys d.
Proof.
  unfold keys. induction d as [|[k0 v0] d IH]; [reflexivity|]. cbn [append_at].
  destruct (String.eqb k k0); cbn [map fst]; [reflexivity|].
  rewrite IH. reflexivity.
Qed.

Lemma keys_set (k : string) (v : list string) (d : dict) :
  keys (set k v d) =
    match get k d with Some _ => keys d | None => keys d ++ [k] end.
Proof.
  unfold keys. induction d as [|[k0 v0] d IH]; [reflexivity|]. cbn [set get].
  destruct (String.eqb k k0); cbn [map fst]; [reflexivity|].
  rewrite IH. destruct (get k d); reflexivity.
Qed.

Lemma get_none_not_key (k : string) (d : dict) :
  get k d = None -> ~ In k (keys d).
Proof.
  unfold keys. induction d as [|[k0 v0] d IH]; cbn [get map fst]; [auto|].
  destruct (String.eqb k k0) eqn:E; [discriminate|].
  apply String.eqb_neq in E. intros H [Heq|Hin]; [congruence|].
  exact (IH H Hin).
Qed.

Lemma nodup_snoc {A : Type} (l : list A) (x : A) :
  ~ In x l -> List.NoDup l -> List.NoDup (l ++ [x]).
Proof.
  intros Hx Hl. induction Hl as [|y l Hy Hl IH]; cbn [app].
  - constructor; [intros []|constructor].
  - constructor.
    + rewrite in_app_iff. intros [H|[H|[]]]; [exact (Hy H)|].
      subst. apply Hx. left. reflexivity.
    + apply IH. intros H. apply Hx. right. exact H.
Qed.

Definition part_names : list string := ["Part A"; "Part B"; "Part C"].

Definition part_keys (st : pstate) : Prop :=
  List.NoDup (keys (sections st)) /\
  Forall (fun k => In k part_names) (keys (sections st)).

Lemma render_line_part_keys (st : pstate) (l : string) :
  part_keys st -> part_keys (render_line st l).
Proof.
  intros [Hnd Hall]. apply render_line_cases; try (split; assumption).
  - intros k Hk. unfold part_keys. cbn [sections set_sections set_current_key].
    rewrite keys_set. destruct (get k (sections st)) eqn:Hg; [split; assumption|].
    split.
    + apply nodup_snoc; [apply (get_none_not_key _ _ Hg)|exact Hnd].
    + apply Forall_app. split; [exact Hall|]. constructor; [|constructor].
      unfold part_names. destruct Hk as [->|[->| ->]]; cbn [In]; auto.
  - intros k _ _. unfold part_keys. cbn [sections set_sections].
    rewrite keys_append_at. split; assumption.
Qed.

(** X3.  The section names of [render_html_worksheet] are pairwise different
    and drawn from the three parts and "Extra Practice"; the button branch
    always has the three parts, in that order, before "Extra Practice". *)
Theorem section_names (text child : string) :
  (List.NoDup (keys (ws_sections (render_html_worksheet text child))) /\
   Forall (fun k => In k ["Part A"; "Part B"; "Part C"; "Extra Practice"])
     (keys (ws_sections (render_html_worksheet text child)))) /\
  keys (ws_sections (generate_worksheet text child)) =
    ["Part A"; "Part B"; "Part C"] ++
    (if (total (sections (button_pass text child)) <? 12)%nat
     then ["Extra Practice"] else []).
Proof.
  split.
  - rewrite (proj1 (worksheet_sections_backfilled text child)).
    assert (Hk : part_keys (render_pass text child)).
    { unfold render_pass. apply fold_invariant; [apply render_line_part_keys|].
      split; [constructor|constructor]. }
    destruct Hk as [Hnd Hall].
    assert (Hall' : Forall (fun k => In k ["Part A"; "Part B"; "Part C"; "Extra Practice"])
                      (keys (sections (render_pass text child)))).
    { eapply Forall_impl; [exact Hall|]. unfold part_names.
      intros k Hk. cbn [In] in *. tauto. }
    destruct (total (sections (render_pass text child)) <? 12)%nat;
      [|split; assumption].
    unfold keys in *. rewrite map_app. cbn [map fst]. split.
    + apply nodup_snoc; [|exact Hnd].
      apply (get_none_not_key _ _ (render_pass_no_extra text child)).
    + apply Forall_app. split; [exact Hall'|].
      constructor; [cbn [In]; auto|constructor].
  - rewrite (proj2 (worksheet_sections_backfilled text child)).
    assert (Hk : keys (sections (button_pass text child)) =
                 ["Part A"; "Part B"; "Part C"]).
    { unfold button_pass.
      apply (fold_invariant button_line
               (fun st => keys (sections st) = ["Part A"; "Part B"; "Part C"]));
        [|reflexivity].
      intros st l H. apply button_line_cases; auto.
      intros k _. cbn [sections set_sections]. rewrite keys_append_at. exact H. }
    destruct (total (sections (button_pass text child)) <? 12)%nat.
    + unfold keys in *. rewrite map_app, Hk. reflexivity.
    + rewrite Hk. reflexivity.
Qed.

(** ** Questions of [render_html_worksheet] are never empty *)

Definition all_questions (P : string -> Prop) (d : dict) : Prop :=
  Forall (fun kv => Forall P (snd kv)) d.

Lemma all_questions_set (P : string -> Prop) (k : string) (d : dict) :
  all_questions P d -> all_questions P (set k [] d).
Proof.
  unfold all_questions. induction d as [|[k0 v0] d IH]; intros H; cbn [set].
  - constructor; [constructor|constructor].
  - inversion H as [|? ? Hv Hd]; subst.
    destruct (String.eqb k k0); constructor; auto.
Qed.

Lemma all_questions_append_at (P : string -> Prop) (k x : string) (d : dict) :
  P x -> all_questions P d -> all_questions P (append_at k x d).
Proof.
  unfold all_questions. intros Hx.
  induction d as [|[k0 v0] d IH]; intros H; cbn [append_at]; [constructor|].
  inversion H as [|? ? Hv Hd]; subst. cbn [snd] in Hv.
  destruct (String.eqb k k0); constructor; cbn [snd]; auto.
  apply Forall_app. split; [exact Hv|]. constructor; [exact Hx|constructor].
Qed.

Lemma practice_question_not_empty (t : nat) :
  is_empty (practice_question t) = false.
Proof. reflexivity. Qed.

(** X4.  Every question that [render_html_worksheet] hands to the template, in
    whatever section, is a non-empty text. *)
Theorem render_questions_not_empty (text child : string) :
  all_questions (fun q => is_empty q = false)
    (ws_sections (render_html_worksheet text child)).
Proof.
  rewrite (proj1 (worksheet_sections_backfilled text child)).
  assert (H : all_questions (fun q => is_empty q = false)
                (sections (render_pass text child))).
  { unfold render_pass.
    apply (fold_invariant render_line
             (fun st => all_questions (fun q => is_empty q = false) (sections st)));
      [|constructor].
    intros st l Hst. apply render_line_cases; auto.
    - intros k _. apply all_questions_set. exact Hst.
    - intros k _ Hne. apply all_questions_append_at; assumption. }
  destruct (total (sections (render_pass text child)) <? 12)%nat; [|exact H].
  apply Forall_app. split; [exact H|]. constructor; [|constructor].
  cbn [snd]. unfold fillers. apply Forall_map.
  apply Forall_forall. intros t _. apply practice_question_not_empty.
Qed.

(** ** Without a PART header nothing is collected *)

Lemma render_line_no_part (st : pstate) (l : string) :
  is_part_header l = false -> current_key st = None ->
  current_key (render_line st l) = None /\
  sections (render_line st l) = sections st.
Proof.
  unfold is_part_header. intros H Hcur.
  apply orb_false_elim in H as [H Hc]. apply orb_false_elim in H as [Ha Hb].
  unfold render_line. rewrite Ha, Hb, Hc, Hcur.
  destruct (startswith "TITLE" (upper l)); [split; assumption || reflexivity|].
  destruct (startswith "INSTRUCTIONS" (upper l));
    [split; assumption || reflexivity|].
  destruct (startswith "PARENT TIPS" (upper l));
    split; assumption || reflexivity.
Qed.

Lemma button_line_no_part (st : pstate) (l : string) :
  is_part_header l = false -> current_key st = None ->
  current_key (button_line st l) = None /\
  sections (button_line st l) = sections st.
Proof.
  unfold is_part_header. intros H Hcur.
  apply orb_false_elim in H as [H Hc]. apply orb_false_elim in H as [Ha Hb].
  unfold button_line. rewrite Ha, Hb, Hc, Hcur.
  destruct (startswith "TITLE" (upper l)); [split; assumption || reflexivity|].
  destruct (startswith "INSTRUCTIONS" (upper l));
    [split; assumption || reflexivity|].
  destruct (startswith "PARENT TIPS" (upper l));
    split; assumption || reflexivity.
Qed.

Lemma fold_no_part (step : pstate -> string -> pstate) :
  (forall st l, is_part_header l = false -> current_key st = None ->
                current_key (step st l) = None /\
                sections (step st l) = sections st) ->
  forall ls st,
    Forall (fun l => is_part_header l = false) ls ->
    current_key st = None ->
    sections (fold_left step ls st) = sections st.
Proof.
  intros Hstep ls. induction ls as [|l ls IH]; intros st Hall Hcur;
    [reflexivity|].
  inversion Hall as [|? ? Hl Hls]; subst. cbn [fold_left].
  destruct (Hstep st l Hl Hcur) as [Hc Hs].
  rewrite (IH _ Hls Hc). exact Hs.
Qed.

(** X5.  When no line is a PART A, PART B or PART C header, no line becomes a
    question, whatever else the text holds (TITLE, INSTRUCTIONS and PARENT
    TIPS lines included): [render_html_worksheet] returns the twelve fillers
    alone, the button branch returns its three empty parts and the twelve
    fillers. *)
Theorem no_part_header_no_question (text child : string) :
  (Forall (fun l => is_part_header l = false) (render_lines text) ->
   ws_sections (render_html_worksheet text child) =
     [("Extra Practice", fillers 0)]) /\
  (Forall (fun l => is_part_header l = false) (splitlines text) ->
   ws_sections (generate_worksheet text child) =
     [("Part A", []); ("Part B", []); ("Part C", []);
      ("Extra Practice", fillers 0)]).
Proof.
  split; intros Hall.
  - rewrite (proj1 (worksheet_sections_backfilled text child)).
    unfold render_pass.
    rewrite (fold_no_part render_line render_line_no_part _
               (render_init child) Hall eq_refl).
    reflexivity.
  - rewrite (proj2 (worksheet_sections_backfilled text child)).
    unfold button_pass.
    rewrite (fold_no_part button_line button_line_no_part _
               (button_init child) Hall eq_refl).
    reflexivity.
Qed.

Lemma no_part_header_no_question_witness :
  ws_sections (render_html_worksheet
                 ("TITLE: Stars" +:+ Samples.lf +:+ "1. Count the stars") "Landon") =
    [("Extra Practice", fillers 0)] /\
  ws_sections (generate_worksheet
                 ("TITLE: Stars" +:+ Samples.lf +:+ "1. Count the stars") "Landon") =
    [("Part A", []); ("Part B", []); ("Part C", []);
     ("Extra Practice", fillers 0)].
Proof.
  split.
  - apply (proj1 (no_part_header_no_question _ "Landon")).
    vm_compute. repeat constructor.
  - apply (proj2 (no_part_header_no_question _ "Landon")).
    vm_compute. repeat constructor.
Defined.

(** ** The fillers are pairwise different *)

Lemma length_append (a b : string) :
  String.length (a +:+ b) = (String.length a + String.length b)%nat.
Proof. induction a as [|c a IH]; simpl; [reflexivity|]. f_equal. exact IH. Qed.

Lemma append_cancel_l (p a b : string) : p +:+ a = p +:+ b -> a = b.
Proof.
  induction p as [|c p IH]; simpl; [auto|]. intros [= H]. exact (IH H).
Qed.

Lemma append_cancel_r (a b s : string) : a +:+ s = b +:+ s -> a = b.
Proof.
  revert b. induction a as [|c a IH]; intros [|c' b] H; simpl in H.
  - reflexivity.
  - apply (f_equal String.length) in H. rewrite !length_append in H.
    simpl in H. lia.
  - apply (f_equal String.length) in H. rewrite !length_append in H.
    simpl in H. lia.
  - injection H as -> H. rewrite (IH _ H). reflexivity.
Qed.

Lemma str_of_nat_inj (a b : nat) : str_of_nat a = str_of_nat b -> a = b.
Proof.
  unfold str_of_nat. intros H.
  apply DecimalNat.Unsigned.to_uint_inj.
  assert (Hs : Some (Nat.to_uint a) = Some (Nat.to_uint b)).
  { rewrite <- !NilEmpty.usu, H. reflexivity. }
  injection Hs as Hs. exact Hs.
Qed.

Lemma practice_question_inj (a b : nat) :
  practice_question a = practice_question b -> a = b.
Proof.
  unfold practice_question. intros H.
  apply append_cancel_l, append_cancel_r, str_of_nat_inj in H. lia.
Qed.

Lemma nodup_map_inj {A B : Type} (f : A -> B) (l : list A) :
  (forall a b, f a = f b -> a = b) -> List.NoDup l -> List.NoDup (map f l).
Proof.
  intros Hf Hl. induction Hl as [|x l Hx Hl IH]; cbn [map]; constructor; auto.
  rewrite in_map_iff. intros (y & Hy & Hin). apply Hf in Hy. subst y.
  exact (Hx Hin).
Qed.

Lemma fillers_nodup (t : nat) : List.NoDup (fillers t).
Proof.
  unfold fillers. apply nodup_map_inj.
  - intros a b. apply practice_question_inj.
  - apply List.seq_NoDup.
Qed.

(** X6.  The questions of the section "Extra Practice" are pairwise different,
    in both parsers: no two fillers carry the same number. *)
Theorem extra_practice_distinct (text child : string) :
  match get "Extra Practice" (ws_sections (render_html_worksheet text child)) with
  | Some qs => List.NoDup qs
  | None => True
  end /\
  match get "Extra Practice" (ws_sections (generate_worksheet text child)) with
  | Some qs => List.NoDup qs
  | None => True
  end.
Proof.
  rewrite (proj1 (worksheet_sections_backfilled text child)),
    (proj2 (worksheet_sections_backfilled text child)).
  split.
  - destruct (total (sections (render_pass text child)) <? 12)%nat.
    + rewrite (get_last _ _ _ (render_pass_no_extra text child)).
      apply fillers_nodup.
    + rewrite (render_pass_no_extra text child). exact I.
  - destruct (total (sections (button_pass text child)) <? 12)%nat.
    + rewrite (get_last _ _ _ (button_pass_no_extra text child)).
      apply fillers_nodup.
    + rewrite (button_pass_no_extra text child). exact I.
Qed.

(** * Further properties of the history cache *)

(** ** What a get leaves alone *)

(** X7.  [get_session_history] never writes a file and never touches the cache
    entry of another session. *)
Theorem get_leaves_files_and_others (J : Json.lib) (sid : string) (st : state) :
  files (snd (get_session_history J sid st)) = files st /\
  forall sid', sid' <> sid ->
    chat_history_store (snd (get_session_history J sid st)) !! sid' =
    chat_history_store st !! sid'.
Proof.
  unfold get_session_history.
  destruct (chat_history_store st !! sid) as [h|]; [split; reflexivity|].
  destruct (load_messages J sid st) as [msgs|e]; [|split; reflexivity].
  cbn [snd files chat_history_store]. split; [reflexivity|].
  intros sid' Hne. apply lookup_insert_ne. congruence.
Qed.

Lemma get_leaves_files_and_others_witness :
  chat_history_store
    (snd (get_session_history JsonText.reference "abc123" Samples.running))
    !! "worksheet_session" = Some Samples.long_history.
Proof.
  rewrite (proj2 (get_leaves_files_and_others JsonText.reference "abc123"
                    Samples.running) "worksheet_session").
  - vm_compute. reflexivity.
  - discriminate.
Defined.

(** X8.  A call that raises leaves the cache, the files and the object counter
    exactly as they were, whatever the exception. *)
Theorem get_failure_changes_nothing
  (J : Json.lib) (sid : string) (st : state) (e : exn) :
  fst (get_session_history J sid st) = Raise e ->
  snd (get_session_history J sid st) = st.
Proof.
  unfold get_session_history.
  destruct (chat_history_store st !! sid) as [h|]; [discriminate|].
  destruct (load_messages J sid st) as [msgs|e']; [discriminate|].
  reflexivity.
Qed.

Lemma get_failure_changes_nothing_witness :
  snd (get_session_history JsonText.reference "abc123"
         (Samples.started {[ "abc123_history.json" := "[1, 2" ]})) =
  Samples.started {[ "abc123_history.json" := "[1, 2" ]}.
Proof.
  apply (get_failure_changes_nothing _ _ _ JSONDecodeError).
  vm_compute. reflexivity.
Defined.



(** ** What a save leaves alone *)

Lemma filename_inj (s1 s2 : string) : filename s1 = filename s2 -> s1 = s2.
Proof. unfold filename. apply append_cancel_r. Qed.


(** X11.  Saving twice in a row is the same as saving once. *)
Theorem save_twice_is_save (J : Json.lib) (sid : string) (st : state) :
  save_session_history J sid (snd (save_session_history J sid st)) =
  save_session_history J sid st.
Proof.
  unfold save_session_history at 2 3.
  destruct (chat_history_store st !! sid) as [h|] eqn:Hc; cbn [snd].
  - unfold save_session_history. cbn [chat_history_store files next_oid].
    rewrite Hc. rewrite insert_insert_eq. reflexivity.
  - unfold save_session_history. rewrite Hc. reflexivity.
Qed.

(** ** Restart, reload and save *)

Lemma last20_short {A : Type} (l : list A) :
  (length l <= 20)%nat -> last20 l = l.
Proof.
  intros H. unfold last20.
  replace (length l - 20)%nat with 0%nat by lia. reflexivity.
Qed.

Lemma serialize_plain (l : list Json.value) : map serialize (map Plain l) = l.
Proof. induction l as [|v l IH]; cbn [map serialize]; [|rewrite IH]; reflexivity. Qed.

Lemma plain_serialize (l : list message) :
  Forall (fun m => exists v, m = Plain v) l -> map Plain (map serialize l) = l.
Proof.
  induction 1 as [|m l [v ->] _ IH]; cbn [map serialize]; [|rewrite IH];
    reflexivity.
Qed.

(** X12.  A get that loads a file holding a list of more than twenty messages,
    followed by a save, rewrites the file with the last twenty only: the
    older messages are gone from the disk as well. *)
Theorem reload_then_save_truncates_file
  (J : Json.lib) (sid text : string) (st : state) (items : list Json.value) :
  chat_history_store st !! sid = None ->
  files st !! filename sid = Some text ->
  is_empty (strip text) = false ->
  Json.loads J (strip text) = Some (Json.Arr items) ->
  files (snd (save_session_history J sid (snd (get_session_history J sid st))))
    !! filename sid = Some (Json.dumps J (Json.Arr (last20 items))).
Proof.
  intros Hfresh Hf Hne Hl.
  unfold get_session_history. rewrite Hfresh.
  rewrite (load_messages_list J sid text st items Hf Hne Hl). cbn [snd].
  erewrite save_cached; [|cbn [chat_history_store]; apply lookup_insert_eq].
  cbn [snd files messages]. rewrite serialize_plain. apply lookup_insert_eq.
Qed.

Lemma reload_then_save_truncates_file_witness :
  files (snd (save_session_history JsonText.reference "worksheet_session"
           (snd (get_session_history JsonText.reference "worksheet_session"
              (Samples.started
                 (files (snd (save_session_history JsonText.reference
                               "worksheet_session" Samples.running))))))))
    !! filename "worksheet_session" =
  Some (Json.dumps JsonText.reference
          (Json.Arr (last20 (map serialize (messages Samples.long_history))))).
Proof.
  refine (reload_then_save_truncates_file JsonText.reference
            "worksheet_session"
            (Json.dumps JsonText.reference
               (Json.Arr (map serialize (messages Samples.long_history))))
            _ _ _ _ _ _); vm_compute; reflexivity.
Defined.

(** X13.  A history of at most twenty messages comes back whole from a save and
    a get without a cache entry, each message in its serialized form; when
    all its messages are plain values (as after a load) it comes back
    identical. *)
Theorem short_history_round_trip
  (J : Json.lib) (sid : string) (st st' : state) (h : history) :
  chat_history_store st !! sid = Some h ->
  (length (messages h) <= 20)%nat ->
  Json.reads_back J (Json.Arr (map serialize (messages h))) ->
  chat_history_store st' !! sid = None ->
  files st' = files (snd (save_session_history J sid st)) ->
  exists h',
    fst (get_session_history J sid st') = Ok h' /\
    messages h' = map Plain (map serialize (messages h)) /\
    (Forall (fun m => exists v, m = Plain v) (messages h) ->
     messages h' = messages h).
Proof.
  intros Hh Hlen [Hne Hback] Hfresh Hfiles.
  rewrite (save_cached J sid st h Hh) in Hfiles. cbn [snd files] in Hfiles.
  assert (Hfile : files st' !! filename sid =
            Some (Json.dumps J (Json.Arr (map serialize (messages h))))).
  { rewrite Hfiles. apply lookup_insert_eq. }
  unfold get_session_history. rewrite Hfresh.
  rewrite (load_messages_list J sid _ st' _ Hfile Hne Hback).
  rewrite last20_short by (rewrite length_map; exact Hlen).
  eexists. cbn [fst]. split; [reflexivity|]. cbn [messages].
  split; [reflexivity|]. apply plain_serialize.
Qed.

Lemma short_history_round_trip_witness :
  exists h',
    fst (get_session_history JsonText.reference "abc123"
           (Samples.started
              (files (snd (save_session_history JsonText.reference "abc123"
                 {| chat_history_store :=
                      {[ "abc123" :=
                           {| oid := 1%positive;
                              messages := [Plain (Samples.chat "human" "hi")] |} ]};
                    files := ∅; next_oid := 2%positive |}))))) = Ok h' /\
    messages h' = [Plain (Samples.chat "human" "hi")].
Proof.
  destruct (short_history_round_trip JsonText.reference "abc123"
    {| chat_history_store :=
         {[ "abc123" := {| oid := 1%positive;
                           messages := [Plain (Samples.chat "human" "hi")] |} ]};
       files := ∅; next_oid := 2%positive |}
    (Samples.started
       (files (snd (save_session_history JsonText.reference "abc123"
          {| chat_history_store :=
               {[ "abc123" :=
                    {| oid := 1%positive;
                       messages := [Plain (Samples.chat "human" "hi")] |} ]};
             files := ∅; next_oid := 2%positive |}))))
    {| oid := 1%positive; messages := [Plain (Samples.chat "human" "hi")] |})
    as (h' & Hget & Hm & _).
  - vm_compute. reflexivity.
  - cbn. lia.
  - split; vm_compute; reflexivity.
  - vm_compute. reflexivity.
  - reflexivity.
  - exists h'. split; [exact Hget|]. rewrite Hm. reflexivity.
Defined.

(** ** Sessions never share a history object *)

Import Process.

Definition objects_distinct (st : state) : Prop :=
  (forall sid h, chat_history_store st !! sid = Some h ->
                 (oid h < next_oid st)%positive) /\
  (forall s1 s2 h1 h2,
     chat_history_store st !! s1 = Some h1 ->
     chat_history_store st !! s2 = Some h2 ->
     oid h1 = oid h2 -> s1 = s2).

Lemma get_objects_distinct (J : Json.lib) (sid : string) (st : state) :
  objects_distinct st -> objects_distinct (snd (get_session_history J sid st)).
Proof.
  intros [Hlt Hinj]. unfold get_session_history.
  destruct (chat_history_store st !! sid) as [h|] eqn:Hc; [split; assumption|].
  destruct (load_messages J sid st) as [msgs|e]; [|split; assumption].
  cbn [snd]. split; cbn [chat_history_store next_oid].
  - intros s h. rewrite lookup_insert. destruct (decide (sid = s)) as [->|Hne].
    + intros [= <-]. cbn [oid]. lia.
    + intros H. specialize (Hlt _ _ H). lia.
  - intros s1 s2 h1 h2. rewrite !lookup_insert.
    destruct (decide (sid = s1)) as [E1|H1], (decide (sid = s2)) as [E2|H2].
    + intros _ _ _. congruence.
    + intros [= <-] H Ho. cbn [oid] in Ho. specialize (Hlt _ _ H). lia.
    + intros H [= <-] Ho. cbn [oid] in Ho. specialize (Hlt _ _ H). lia.
    + apply Hinj.
Qed.

Lemma append_objects_distinct (sid : string) (msg : message) (st : state) :
  objects_distinct st -> objects_distinct (append_message sid msg st).
Proof.
  intros [Hlt Hinj]. unfold append_message.
  destruct (chat_history_store st !! sid) as [h|] eqn:Hc; [|split; assumption].
  split; cbn [chat_history_store next_oid].
  - intros s h0. rewrite lookup_insert. destruct (decide (sid = s)) as [->|Hne].
    + intros [= <-]. cbn [oid add_message]. exact (Hlt _ _ Hc).
    + apply Hlt.
  - intros s1 s2 h1 h2. rewrite !lookup_insert.
    destruct (decide (sid = s1)) as [E1|H1], (decide (sid = s2)) as [E2|H2].
    + intros _ _ _. congruence.
    + intros [= <-] H Ho. cbn [oid add_message] in Ho.
      rewrite <- E1. exact (Hinj _ _ _ _ Hc H Ho).
    + intros H [= <-] Ho. cbn [oid add_message] in Ho.
      rewrite <- E2. exact (Hinj _ _ _ _ H Hc Ho).
    + apply Hinj.
Qed.

Lemma save_objects_distinct (J : Json.lib) (sid : string) (st : state) :
  objects_distinct st -> objects_distinct (snd (save_session_history J sid st)).
Proof.
  intros H. unfold save_session_history.
  destruct (chat_history_store st !! sid); exact H.
Qed.

(** X14.  In a process that starts with an empty cache, after any sequence of
    gets, appends and saves (failed calls included), two different
    sessions never hold the same history object, and every cached object
    is older than the next one to be created. *)
Theorem sessions_never_share_history
  (J : Json.lib) (ops : list op) (fs : gmap string string) :
  objects_distinct (run J ops (Samples.started fs)).
Proof.
  unfold run.
  assert (H : objects_distinct (Samples.started fs)).
  { split; cbn [Samples.started chat_history_store].
    - intros sid h. rewrite lookup_empty. discriminate.
    - intros s1 s2 h1 h2. rewrite lookup_empty. discriminate. }
  revert H. generalize (Samples.started fs).
  induction ops as [|o ops IH]; intros st H; cbn [fold_left]; [exact H|].
  apply IH. destruct o as [sid|sid msg|sid]; cbn [step].
  - apply get_objects_distinct. exact H.
  - apply append_objects_distinct. exact H.
  - apply save_objects_distinct. exact H.
Qed.

(** * Properties of [format_scores] *)

Import Scores.

Lemma add_entries_filter (l : list result) (acc : list string) :
  fold_left add_entry l acc = acc ++ map line (List.filter usable l).
Proof.
  revert acc. induction l as [|r l IH]; intros acc; cbn [fold_left].
  - cbn. rewrite app_nil_r. reflexivity.
  - rewrite IH. unfold add_entry. cbn [List.filter].
    change (negb (is_empty (get_or_empty "title" r))
            || negb (is_empty (get_or_empty "snippet" r))) with (usable r).
    destruct (usable r).
    + cbn [map]. rewrite <- app_assoc. reflexivity.
    + reflexivity.
Qed.

Lemma entries_filter (results : list result) (limit : Z) :
  entries results limit = map line (List.filter usable (slice_to limit results)).
Proof. unfold entries. rewrite add_entries_filter. reflexivity. Qed.

(** X15.  The bullets are the lines "- title: snippet" of the results, among the
    first [limit] ones, that have a title or a snippet, in their order
    (a missing field counts as empty); there are at most [limit] of them. *)
Theorem entries_are_usable_results (results : list result) (limit : Z) :
  entries results limit = map line (List.filter usable (slice_to limit results)) /\
  ((0 <= limit)%Z ->
   (length (entries results limit) <= Z.to_nat limit)%nat /\
   (length (entries results limit) <= length results)%nat).
Proof.
  rewrite entries_filter.
  split; [reflexivity|]. intros Hpos. rewrite length_map.
  pose proof (List.filter_length_le usable (slice_to limit results)) as Hf.
  unfold slice_to in *.
  destruct (limit <? 0)%Z eqn:E; [apply Z.ltb_lt in E; lia|].
  rewrite length_take in Hf. lia.
Qed.

Lemma entries_are_usable_results_witness :
  (length (entries (repeat [("title", "Jets 3 - Bills 7")] 9) 5) <= 5)%nat.
Proof.
  assert (H : (0 <= 5)%Z) by lia.
  exact (proj1 (proj2 (entries_are_usable_results
                         (repeat [("title", "Jets 3 - Bills 7")] 9) 5) H)).
Defined.

(** X16.  Results beyond the first [limit] never change the answer. *)
Theorem format_scores_ignores_rest
  (results more : list result) (limit : Z) :
  results <> [] ->
  (0 <= limit)%Z ->
  (Z.to_nat limit <= length results)%nat ->
  format_scores (results ++ more) limit = format_scores results limit.
Proof.
  intros Hne Hpos Hlen.
  destruct results as [|r rs]; [congruence|].
  cbn [app format_scores]. f_equal.
  change (r :: rs ++ more) with ((r :: rs) ++ more).
  rewrite !entries_filter.
  unfold slice_to.
  destruct (limit <? 0)%Z eqn:E; [apply Z.ltb_lt in E; lia|].
  rewrite take_app_le by exact Hlen. reflexivity.
Qed.

Lemma format_scores_ignores_rest_witness :
  format_scores ([[("title", "Jets 3 - Bills 7")]] ++
                 [[("title", "Rams 0 - Colts 0")]]) 1 =
  format_scores [[("title", "Jets 3 - Bills 7")]] 1.
Proof.
  apply format_scores_ignores_rest; [discriminate|lia|cbn; lia].
Defined.

Lemma first_line_starts_with_dash (l : list string) (r : result) :
  String.concat (String "010"%char EmptyString) (line r :: l) <>
  "No live scores available.".
Proof.
  destruct l as [|y l]; cbn [String.concat]; unfold line; intros H;
    apply (f_equal (fun s => match s with
                             | String c _ => Ascii.eqb c "-"
                             | EmptyString => false
                             end)) in H;
    discriminate H.
Qed.

(** X17.  [format_scores] returns the sentence "No live scores available."
    for the empty list and for no other list; a list that is not empty but
    whose results have neither a title nor a snippet gives the empty
    text. *)
Theorem format_scores_nothing_usable (results : list result) (limit : Z) :
  (format_scores results limit = "No live scores available." <->
   results = []) /\
  (results <> [] ->
   Forall (fun r => get_or_empty "title" r = "" /\
                    get_or_empty "snippet" r = "") results ->
   format_scores results limit = "").
Proof.
  split.
  - split; [|intros ->; reflexivity].
    destruct results as [|r rs]; [reflexivity|].
    cbn [format_scores]. rewrite entries_filter. intros H. exfalso.
    destruct (List.filter usable (slice_to limit (r :: rs))) as [|x l].
    + discriminate H.
    + exact (first_line_starts_with_dash _ _ H).
  - intros Hne Hall. destruct results as [|r rs]; [congruence|].
    cbn [format_scores]. rewrite entries_filter.
    assert (Hnil : List.filter usable (slice_to limit (r :: rs)) = []).
    { assert (Hsub : Forall (fun r => get_or_empty "title" r = "" /\
                                      get_or_empty "snippet" r = "")
                       (slice_to limit (r :: rs))).
      { unfold slice_to. destruct (limit <? 0)%Z; apply Forall_take; exact Hall. }
      induction Hsub as [|x l [Hx1 Hx2] _ IH]; [reflexivity|].
      cbn [List.filter]. unfold usable at 1. rewrite Hx1, Hx2. exact IH. }
    rewrite Hnil. reflexivity.
Qed.

Lemma format_scores_nothing_usable_witness :
  format_scores [[("link", "https://example.org")]; []] 5 = "" /\
  format_scores [[("title", "Jets 3 - Bills 7")]] 5 <>
    "No live scores available.".
Proof.
  split.
  - apply (proj2 (format_scores_nothing_usable _ 5)); [discriminate|].
    repeat constructor.
  - intros H.
    apply (proj1 (format_scores_nothing_usable _ 5)) in H. discriminate H.
Defined.

(** * Properties of [html_template] *)

Import Html.

(** [x] occurs in [s] as a contiguous piece. *)
Definition occurs_in (x s : string) : Prop := exists a b, s = a +:+ x +:+ b.

Lemma append_cons (x : ascii) (a b : string) :
  String x a +:+ b = String x (a +:+ b).
Proof. reflexivity. Qed.

Lemma append_assoc (a b c : string) : (a +:+ b) +:+ c = a +:+ (b +:+ c).
Proof.
  induction a as [|x a IH]; [reflexivity|].
  rewrite !append_cons, IH. reflexivity.
Qed.

Lemma append_empty_r (a : string) : a +:+ "" = a.
Proof.
  induction a as [|x a IH]; [reflexivity|].
  rewrite append_cons, IH. reflexivity.
Qed.

Lemma occurs_in_append_l (x s t : string) : occurs_in x s -> occurs_in x (t +:+ s).
Proof.
  intros (a & b & ->). exists (t +:+ a), b. rewrite append_assoc. reflexivity.
Qed.

Lemma occurs_in_append_r (x s t : string) : occurs_in x s -> occurs_in x (s +:+ t).
Proof.
  intros (a & b & ->). exists a, (b +:+ t). rewrite !append_assoc. reflexivity.
Qed.

Lemma occurs_in_self (x : string) : occurs_in x x.
Proof. exists "", "". rewrite append_empty_r. reflexivity. Qed.

Lemma concat_cons (x : string) (l : list string) :
  String.concat "" (x :: l) = x +:+ String.concat "" l.
Proof.
  destruct l as [|y l]; cbn [String.concat]; [rewrite append_empty_r|];
    reflexivity.
Qed.

Lemma item_occurs (q : string) (questions : list string) :
  In q questions ->
  occurs_in (item q) (String.concat "" (map item questions)).
Proof.
  induction questions as [|q' qs IH]; intros Hin; [destruct Hin|].
  cbn [map]. rewrite concat_cons. destruct Hin as [->|Hin].
  - apply occurs_in_append_r, occurs_in_self.
  - apply occurs_in_append_l, IH, Hin.
Qed.

Lemma sections_html_acc (x : string) (d : dict) (acc : string) :
  occurs_in x acc ->
  occurs_in x (fold_left (fun acc kv => acc +:+ section_html (fst kv) (snd kv))
                 d acc).
Proof.
  revert acc. induction d as [|kv d IH]; intros acc H; cbn [fold_left]; [exact H|].
  apply IH, occurs_in_append_r, H.
Qed.

Lemma section_occurs (x : string) (d : dict) (name : string) (qs : list string) :
  In (name, qs) d ->
  occurs_in x (section_html name qs) ->
  occurs_in x (sections_html d).
Proof.
  unfold sections_html. generalize EmptyString.
  induction d as [|kv d IH]; intros acc Hin Hx; [destruct Hin|].
  cbn [fold_left]. destruct Hin as [->|Hin].
  - apply sections_html_acc, occurs_in_append_l. exact Hx.
  - apply IH; assumption.
Qed.

Ltac find_piece H :=
  repeat first [ apply occurs_in_append_r; exact H
               | apply occurs_in_append_l ].

Lemma sections_occur_in_page
  (x title instructions tips today child : string) (d : dict) :
  occurs_in x (sections_html d) ->
  occurs_in x (html_template title instructions d tips today child).
Proof. intros H. unfold html_template. find_piece H. Qed.

(** X18.  For every section of the dictionary, the page holds its name as
    the heading "<h2>name</h2>" (also when the section has no question)
    and each of its questions as the list item "<li>question</li>", with
    the texts as they are: nothing is escaped or dropped. *)
Theorem page_holds_every_section
  (title instructions tips today child : string) (d : dict)
  (name : string) (questions : list string) :
  In (name, questions) d ->
  occurs_in ("<h2>" +:+ name +:+ "</h2>")
    (html_template title instructions d tips today child) /\
  forall q, In q questions ->
    occurs_in ("<li>" +:+ q +:+ "</li>")
      (html_template title instructions d tips today child).
Proof.
  intros Hsec. split; [|intros q Hq]; apply sections_occur_in_page;
    apply (section_occurs _ d name questions Hsec); unfold section_html.
  - exists "<div class='section'>",
      ("<ul>" +:+ String.concat "" (map item questions) +:+ "</ul></div>").
    rewrite !append_assoc. reflexivity.
  - apply occurs_in_append_l, occurs_in_append_l, occurs_in_append_l,
      occurs_in_append_r.
    apply (item_occurs q questions Hq).
Qed.

Lemma page_holds_every_section_witness :
  occurs_in "<h2>Part B</h2>"
    (html_template "Space Math" "Count" [("Part A", ["Add 2+2"]); ("Part B", [])]
       "Go slow" "Monday, January 05, 2026" "Landon") /\
  occurs_in "<li>Add 2+2</li>"
    (html_template "Space Math" "Count" [("Part A", ["Add 2+2"]); ("Part B", [])]
       "Go slow" "Monday, January 05, 2026" "Landon").
Proof.
  split.
  - refine (proj1 (page_holds_every_section _ _ _ _ _ _ "Part B" [] _)).
    right. left. reflexivity.
  - refine (proj2 (page_holds_every_section _ _ _ _ _ _ "Part A" ["Add 2+2"] _)
              "Add 2+2" _).
    + left. reflexivity.
    + left. reflexivity.
Defined.

(** * Instructions and tips of [render_html_worksheet] *)

(** X19.  The instructions and the tips that [render_html_worksheet] hands to
    the template are never empty, whatever the text holds: an empty or
    missing value is replaced by the default sentence.  (The title has no
    such fallback.) *)
Theorem render_guidance_never_empty (text child : string) :
  is_empty (ws_instructions (render_html_worksheet text child)) = false /\
  is_empty (ws_tips (render_html_worksheet text child)) = false.
Proof.
  unfold render_html_worksheet. cbn [ws_instructions ws_tips]. split.
  - destruct (is_empty (instructions (render_pass text child))) eqn:E;
      [reflexivity|exact E].
  - destruct (is_empty (tips (render_pass text child))) eqn:E;
      [reflexivity|exact E].
Qed.
